(** * Deep-research: the advanced-agent research pipeline

    A shallow embedding of [advanced-agent/src/workflow.py]: the line
    classifier of [_extract_tools_step], the retrying JSON recovery of
    [_analyze_company_content] with [_create_fallback_analysis], the
    [_research_step] and [_analyze_step] stages and [run].

    Python [str] values are modelled as [string] over the ASCII range;
    characters outside it are treated as letters without case, neither
    digits nor white space.  The search/scrape provider and the language
    model are collaborators: they are oracles over an abstract world, and
    every call is recorded in a trace. *)

From Stdlib Require Import ZArith Ascii String.
From stdpp Require Import gmap strings list fin_maps.

Local Open Scope Z_scope.
Set Warnings "-register-all".

(** ** Python string primitives *)

Module PyStr.

(** [c.isspace()] on the ASCII range: TAB..CR, FS..US and the blank. *)
Definition isspace (c : ascii) : bool :=
  let n := nat_of_ascii c in
  ((9 <=? n)%nat && (n <=? 13)%nat) || ((28 <=? n)%nat && (n <=? 32)%nat).

Definition isdigit (c : ascii) : bool :=
  let n := nat_of_ascii c in (48 <=? n)%nat && (n <=? 57)%nat.

Definition lower_char (c : ascii) : ascii :=
  let n := nat_of_ascii c in
  if (65 <=? n)%nat && (n <=? 90)%nat then ascii_of_nat (n + 32) else c.

Fixpoint lower (s : string) : string :=
  match s with
  | EmptyString => EmptyString
  | String c s' => String (lower_char c) (lower s')
  end.

Fixpoint lstrip (s : string) : string :=
  match s with
  | EmptyString => EmptyString
  | String c s' => if isspace c then lstrip s' else s
  end.

Fixpoint rstrip (s : string) : string :=
  match s with
  | EmptyString => EmptyString
  | String c s' =>
      match rstrip s' with
      | EmptyString => if isspace c then EmptyString else String c EmptyString
      | r => String c r
      end
  end.

(** [s.strip()] *)
Definition strip (s : string) : string := rstrip (lstrip s).

(** [s.startswith(p)] *)
Fixpoint startswith (p s : string) : bool :=
  match p, s with
  | EmptyString, _ => true
  | String a p', String b s' => Ascii.eqb a b && startswith p' s'
  | String _ _, EmptyString => false
  end.

(** [s.endswith(p)] *)
Fixpoint endswith (p s : string) : bool :=
  if String.eqb s p then true
  else match s with
       | EmptyString => false
       | String _ s' => endswith p s'
       end.

(** [sub in s] *)
Fixpoint contains (sub s : string) : bool :=
  startswith sub s ||
  match s with
  | EmptyString => false
  | String _ s' => contains sub s'
  end.

(** [s.find(c)] for a one-character needle; [-1] when absent. *)
Fixpoint find (c : ascii) (s : string) : Z :=
  match s with
  | EmptyString => -1
  | String x s' =>
      if Ascii.eqb x c then 0
      else let r := find c s' in if r =? -1 then -1 else r + 1
  end.

(** [s.rfind(c)] for a one-character needle; [-1] when absent. *)
Fixpoint rfind (c : ascii) (s : string) : Z :=
  match s with
  | EmptyString => -1
  | String x s' =>
      let r := rfind c s' in
      if r =? -1 then (if Ascii.eqb x c then 0 else -1) else r + 1
  end.

Fixpoint drop (n : nat) (s : string) : string :=
  match n, s with
  | O, _ => s
  | S n', String _ s' => drop n' s'
  | S _, EmptyString => EmptyString
  end.

Fixpoint take (n : nat) (s : string) : string :=
  match n, s with
  | S n', String c s' => String c (take n' s')
  | _, _ => EmptyString
  end.

(** [s[a:b]] for [0 <= a] and [0 <= b]. *)
Definition slice (a b : Z) (s : string) : string :=
  take (Z.to_nat (b - a)) (drop (Z.to_nat a) s).

(** [s[:-k]] for [0 < k]. *)
Definition drop_last (k : nat) (s : string) : string :=
  take (String.length s - k) s.

(** [s.split(sep)] for a one-character separator. *)
Fixpoint split (sep : ascii) (s : string) : list string :=
  match s with
  | EmptyString => [EmptyString]
  | String x s' =>
      if Ascii.eqb x sep then EmptyString :: split sep s'
      else match split sep s' with
           | h :: t => String x h :: t
           | [] => [String x EmptyString]
           end
  end.

(** [s.split()]: the maximal runs of characters that are not white space. *)
Fixpoint split_ws (s : string) : list string :=
  match s with
  | EmptyString => []
  | String c s' =>
      if isspace c then split_ws s'
      else match s' with
           | EmptyString => [String c EmptyString]
           | String d _ =>
               if isspace d then String c EmptyString :: split_ws s'
               else match split_ws s' with
                    | h :: t => String c h :: t
                    | [] => [String c EmptyString]
                    end
           end
  end.

(** [sep.join(l)] *)
Fixpoint join (sep : string) (l : list string) : string :=
  match l with
  | [] => EmptyString
  | [x] => x
  | x :: t => x +:+ sep +:+ join sep t
  end.

Definition is_empty (s : string) : bool :=
  match s with EmptyString => true | _ => false end.

End PyStr.

Definition newline : ascii := ascii_of_nat 10.

(** ** The line classifier of [_extract_tools_step] (lines 67-83) *)

Module Classifier.

Definition summary_keywords : list string :=
  ["top"; "mentioned"; "alternatives"; "tools"; "summary"; "article"; "content"].

(** [line.lower().startswith("here are")] *)
Definition preamble_rule (line : string) : bool :=
  PyStr.startswith "here are" (PyStr.lower line).

(** [line[0].isdigit() and "." in line]; the loop only reaches it with a
    non-empty line, an empty one would raise [IndexError] at [line[0]]. *)
Definition numbered_list_rule (line : string) : bool :=
  match line with
  | EmptyString => false
  | String c _ => PyStr.isdigit c && PyStr.contains "." line
  end.

(** [any(word in line.lower() for word in summary_keywords)] *)
Definition stop_word_rule (line : string) : bool :=
  existsb (fun word => PyStr.contains word (PyStr.lower line)) summary_keywords.

(** [len(line.split()) > 5] *)
Definition word_count_rule (line : string) : bool :=
  (5 <? length (PyStr.split_ws line))%nat.

(** One iteration of the [for line in ...] loop; [tool_names] is the list
    being appended to. *)
Definition classify_step (tool_names : list string) (raw : string) : list string :=
  let line := PyStr.strip raw in
  if PyStr.is_empty line then tool_names
  else if preamble_rule line then tool_names
  else if numbered_list_rule line then tool_names
  else if stop_word_rule line then tool_names
  else if word_count_rule line then tool_names
  else tool_names ++ [line].

(** The loop over a sequence of lines, starting from [tool_names = []]. *)
Definition classify_lines (lines : list string) : list string :=
  fold_left classify_step lines [].

(** The loop over [response.content.strip().split("\n")]. *)
Definition classify (content : string) : list string :=
  classify_lines (PyStr.split newline (PyStr.strip content)).

(** The spec's wording of the numbered-list rule: the line begins with a
    digit immediately followed by ".". *)
Definition digit_then_dot (line : string) : bool :=
  match line with
  | String c (String d _) => PyStr.isdigit c && Ascii.eqb d "."
  | _ => false
  end.

(** The tests of one loop iteration on the stripped line, as one
    condition: the line is appended exactly when it holds. *)
Definition keeps (line : string) : bool :=
  negb (PyStr.is_empty line) && negb (preamble_rule line)
  && negb (numbered_list_rule line) && negb (stop_word_rule line)
  && negb (word_count_rule line).

End Classifier.


(** ** Python values, exceptions and the pydantic records *)

(** A Python value as [json.loads] or a response attribute yields it. *)
Inductive pyval : Type :=
  | PNone
  | PBool (b : bool)
  | PInt (z : Z)
  | PFloat (literal : string)
  | PStr (s : string)
  | PList (l : list pyval)
  | PDict (d : gmap string pyval).

Inductive exn : Type :=
  | ValueError (msg : string)
  | AttributeError
  | JSONDecodeError
  | ValidationError
  | CollaboratorError (what : string).

(** [CompanyAnalysis]: the attributes hold Python values. *)
Record CompanyAnalysis : Type := mkCompanyAnalysis {
  pricing_model : pyval;
  is_open_source : pyval;
  tech_stack : pyval;
  description : pyval;
  api_available : pyval;
  language_support : pyval;
  integration_capabilities : pyval
}.

Definition pricing_enum : list string :=
  ["Free"; "Freemium"; "Paid"; "Enterprise"; "Unknown"].

Definition is_str (v : pyval) : bool :=
  match v with PStr _ => true | _ => false end.

Definition is_list (v : pyval) : bool :=
  match v with PList _ => true | _ => false end.

Definition is_optional_bool (v : pyval) : bool :=
  match v with PNone | PBool _ => true | _ => false end.

Definition is_pricing (v : pyval) : bool :=
  match v with
  | PStr s => bool_decide (s ∈ pricing_enum)
  | _ => false
  end.

Definition is_str_list (v : pyval) : bool :=
  match v with PList l => forallb is_str l | _ => false end.

(** The invariant of a tool analysis: the three list attributes are
    lists, the pricing model is one of the five values, the two optional
    booleans are [True], [False] or [None]. *)
Definition analysis_ok (a : CompanyAnalysis) : Prop :=
  is_list (tech_stack a) = true /\
  is_list (language_support a) = true /\
  is_list (integration_capabilities a) = true /\
  is_pricing (pricing_model a) = true /\
  is_optional_bool (is_open_source a) = true /\
  is_optional_bool (api_available a) = true.

Module Models.

Definition field_or (dflt : pyval) (o : option pyval) : pyval :=
  match o with Some v => v | None => dflt end.

(** Modelled from the spec: the [CompanyAnalysis] model of [src/models.py],
    which is not among the sources.  Section 3 gives its fields and their
    types: [pricingModel] one of five values defaulting to Unknown, the two
    optional booleans defaulting to unset, the three lists of strings
    defaulting to empty, [description] a string.  A keyword of another type
    is refused with a validation error; other keywords are ignored. *)
Definition CompanyAnalysis_new (kw : gmap string pyval) : exn + CompanyAnalysis :=
  let pm := field_or (PStr "Unknown") (kw !! "pricing_model") in
  let os := field_or PNone (kw !! "is_open_source") in
  let ts := field_or (PList []) (kw !! "tech_stack") in
  let ds := field_or (PStr "") (kw !! "description") in
  let api := field_or PNone (kw !! "api_available") in
  let ls := field_or (PList []) (kw !! "language_support") in
  let ic := field_or (PList []) (kw !! "integration_capabilities") in
  if is_pricing pm && is_optional_bool os && is_str_list ts && is_str ds
     && is_optional_bool api && is_str_list ls && is_str_list ic
  then inr (mkCompanyAnalysis pm os ts ds api ls ic)
  else inl ValidationError.

End Models.

(** Modelled from the spec: the [CompanyInfo] model of [src/models.py]
    (section 3, CompanyRecord): a name, a website and the competitors
    placeholder, and the attributes that [_research_step] overwrites with
    those of a [CompanyAnalysis]. *)
Record CompanyInfo : Type := mkCompanyInfo {
  ci_name : string;
  ci_description : pyval;
  ci_website : string;
  ci_tech_stack : pyval;
  ci_competitors : list string;
  ci_pricing_model : pyval;
  ci_is_open_source : pyval;
  ci_api_available : pyval;
  ci_language_support : pyval;
  ci_integration_capabilities : pyval
}.

(** Modelled from the spec: the [ResearchState] model of [src/models.py]
    (section 3, ResearchResult). *)
Record ResearchState : Type := mkResearchState {
  query : string;
  extracted_tools : list string;
  companies : list CompanyInfo;
  analysis : option pyval
}.

(** One entry of [search_results.data]; a key that is absent is [None]. *)
Record search_hit : Type := mkHit {
  hit_url : option string;
  hit_markdown : option string;
  hit_title : option string
}.

(** The three prompts of [DeveloperToolsPrompts], by their arguments. *)
Inductive prompt : Type :=
  | ToolExtraction (query content : string)
  | ToolAnalysis (company_name content_prefix : string)
  | Recommendations (query company_data : string).

(** What [self.llm.invoke] does: it raises, or returns a response whose
    [content] is some Python value. *)
Inductive llm_outcome : Type :=
  | LlmRaise (e : exn)
  | LlmResponse (content : pyval).

Inductive event : Type :=
  | EvSearch (q : string) (num_results : nat)
  | EvScrape (url : string)
  | EvInvoke (p : prompt).

Inductive loop_ctl (A : Type) : Type :=
  | Continue
  | Return (a : A).
Arguments Continue {A}.
Arguments Return {A} a.

(** ** The fallback pricing scan in the spec's words *)

Module Spec.

(** The four ordered keyword groups of section 4.2, step 6. *)
Definition pricing_groups : list (list string * string) :=
  [ (["free"; "$0"; "no cost"], "Free");
    (["freemium"; "free tier"; "free plan"], "Freemium");
    (["enterprise"; "contact sales"], "Enterprise");
    (["$"; "price"; "paid"; "subscription"], "Paid") ].

(** First matching group wins, else Unknown. *)
Fixpoint first_match (groups : list (list string * string)) (text : string) : string :=
  match groups with
  | [] => "Unknown"
  | (keywords, label) :: rest =>
      if existsb (fun k => PyStr.contains k text) keywords then label
      else first_match rest text
  end.

(** Case-insensitive scan of the full content. *)
Definition pricing_scan (content : string) : string :=
  first_match pricing_groups (PyStr.lower content).

End Spec.

(** ** Scripted collaborators, for running the pipeline on examples *)

Module Demo.

(** The world is the script of the model's remaining answers; a model
    with nothing left to say raises. *)
Definition World : Type := list llm_outcome.

Definition llm (p : prompt) (w : World) : llm_outcome * World :=
  match w with
  | [] => (LlmRaise (CollaboratorError "connection refused"), [])
  | o :: w' => (o, w')
  end.

(** Every search finds one page, named after the query. *)
Definition search_companies (q : string) (num_results : nat) (w : World)
  : list search_hit * World :=
  ([mkHit (Some ("https://example.org/" +:+ q)) (Some "") (Some q)], w).

Definition scrape_company_pages (url : string) (w : World) : option string * World :=
  (Some "Free tier available, contact sales for more.", w).

(** A parser that knows the empty object only. *)
Definition json_loads (s : string) : option pyval :=
  if String.eqb s "{}" then Some (PDict ∅) else None.

Definition company_json (c : CompanyInfo) : string := ci_name c.

Definition five_tools : list string :=
  ["Supabase"; "PlanetScale"; "Railway"; "Appwrite"; "Nhost"].

(** A search provider that knows every tool but Railway. *)
Definition search_known (q : string) (num_results : nat) (w : World)
  : list search_hit * World :=
  if PyStr.contains "Railway" q then ([], w)
  else ([mkHit (Some ("https://example.org/" +:+ q)) (Some "") (Some q)], w).

(** A search provider that finds nothing. *)
Definition no_results (q : string) (num_results : nat) (w : World)
  : list search_hit * World :=
  ([], w).

End Demo.

(** ** The chat loop of [simple-agent/main.py] (lines 39-64) *)

Module SimpleAgent.

Inductive role : Type := System | User.

Record message : Type := mkMessage { msg_role : role; msg_content : string }.

Definition system_prompt : string :=
  "You are a helpful assistant that can scrape websites, crawl pages, and extract data using Firecrawl tools. Think step by step and use the appropriate tools to help the user.".

(** [agent.ainvoke] with the reading of the last message's content: it
    raises, or gives the text to print. *)
Inductive agent_outcome : Type :=
  | AgentRaises (e : string)
  | AgentAnswers (ai_message : string).

Inductive output : Type :=
  | Goodbye
  | AgentSays (ai_message : string)
  | ErrorSays (e : string).

Inductive event : Type :=
  | Asked (messages : list message)
  | Printed (line : output).

(** How the loop ends: by [break], or by [input()] raising at the end of
    the input, outside the [try]. *)
Inductive ending : Type := Broke | EndOfInput.

(** [user_input[:175000]] *)
Definition max_input : nat := Z.to_nat 175000.

Definition is_quit (user_input : string) : bool :=
  String.eqb (PyStr.lower user_input) "quit".

Definition user_message (user_input : string) : message :=
  mkMessage User (PyStr.take max_input user_input).

Section Loop.

Variable World : Type.
Variable ainvoke : list message -> World -> agent_outcome * World.

Record chat : Type := mkChat {
  messages : list message;
  chat_world : World;
  events : list event
}.

(** The [while True] loop over the lines that [input()] will return. *)
Fixpoint chat_loop (inputs : list string) (s : chat) : ending * chat :=
  match inputs with
  | [] => (EndOfInput, s)
  | user_input :: rest =>
      if is_quit user_input
      then (Broke, mkChat (messages s) (chat_world s) (events s ++ [Printed Goodbye]))
      else
        let messages' := messages s ++ [user_message user_input] in
        let (o, w) := ainvoke messages' (chat_world s) in
        let line :=
          match o with
          | AgentAnswers ai_message => AgentSays ai_message
          | AgentRaises e => ErrorSays e
          end in
        chat_loop rest (mkChat messages' w (events s ++ [Asked messages'; Printed line]))
  end.

(** [main] from the initial [messages] on; the banner printed before the
    loop is left out. *)
Definition main (inputs : list string) (w : World) : ending * chat :=
  chat_loop inputs (mkChat [mkMessage System system_prompt] w []).

End Loop.

(** What is printed for an outcome of the agent (lines 61-64). *)
Definition line_of (o : agent_outcome) : output :=
  match o with
  | AgentAnswers ai_message => AgentSays ai_message
  | AgentRaises e => ErrorSays e
  end.

Section Replies.

Variable World : Type.
Variable ainvoke : list message -> World -> agent_outcome * World.

(** The outcomes of the agent on a sequence of histories given to it one
    after the other, and the world it leaves. *)
Fixpoint outcomes (histories : list (list message)) (w : World)
  : list agent_outcome * World :=
  match histories with
  | [] => ([], w)
  | h :: rest =>
      let (o, w1) := ainvoke h w in
      let (os, w2) := outcomes rest w1 in
      (o :: os, w2)
  end.

End Replies.

(** The events of a call: the history asked, then the line printed. *)
Definition call_events (call : list message * agent_outcome) : list event :=
  [Asked (fst call); Printed (line_of (snd call))].

(** The inputs read before the first "quit". *)
Fixpoint before_quit (inputs : list string) : list string :=
  match inputs with
  | [] => []
  | user_input :: rest =>
      if is_quit user_input then [] else user_input :: before_quit rest
  end.

(** The non-empty prefixes of a list, shortest first. *)
Fixpoint prefixes {A} (l : list A) : list (list A) :=
  match l with
  | [] => []
  | x :: rest => [x] :: map (cons x) (prefixes rest)
  end.

(** The histories handed to the agent, and the lines printed. *)
Fixpoint asked (t : list event) : list (list message) :=
  match t with
  | [] => []
  | Asked m :: rest => m :: asked rest
  | Printed _ :: rest => asked rest
  end.

Fixpoint printed (t : list event) : list output :=
  match t with
  | [] => []
  | Printed l :: rest => l :: printed rest
  | Asked _ :: rest => printed rest
  end.

(** An agent that answers with the number of messages it was given, and
    fails on the third call. *)
Definition demo_agent (messages : list message) (w : nat) : agent_outcome * nat :=
  if (w =? 2)%nat then (AgentRaises "rate limit", S w)
  else (AgentAnswers (if (length messages <=? 2)%nat then "short" else "long"), S w).

End SimpleAgent.

(** ** The pipeline over its collaborators *)

Section Pipeline.

(** The outside world, the language model ([self.llm.invoke]), the search
    and scrape calls of [FirecrawlService], the parser [json.loads]
    ([None] when it raises) and pydantic's [company.json()]. *)
Variable World : Type.
Variable llm : prompt -> World -> llm_outcome * World.
Variable search_companies : string -> nat -> World -> list search_hit * World.
Variable scrape_company_pages : string -> World -> option string * World.
Variable json_loads : string -> option pyval.
Variable company_json : CompanyInfo -> string.

Record St : Type := mkSt { world : World; trace : list event }.

(** Computations that read and change the world and may raise. *)
Definition M (A : Type) : Type := St -> (exn + A) * St.

Definition ret {A} (a : A) : M A := fun st => (inr a, st).

Definition raise {A} (e : exn) : M A := fun st => (inl e, st).

Definition bind {A B} (m : M A) (k : A -> M B) : M B :=
  fun st =>
    match m st with
    | (inr a, st') => k a st'
    | (inl e, st') => (inl e, st')
    end.

(** [try: m except Exception as e: h e] *)
Definition try_except {A} (m : M A) (h : exn -> M A) : M A :=
  fun st =>
    match m st with
    | (inl e, st') => h e st'
    | r => r
    end.

Definition lift {A} (r : exn + A) : M A := fun st => (r, st).

Notation "x <- m ;; k" := (bind m (fun x => k))
  (at level 100, m at next level, right associativity).

Definition invoke (p : prompt) : M pyval :=
  fun st =>
    let (o, w) := llm p (world st) in
    let st' := mkSt w (trace st ++ [EvInvoke p]) in
    match o with
    | LlmRaise e => (inl e, st')
    | LlmResponse c => (inr c, st')
    end.

Definition search (q : string) (num_results : nat) : M (list search_hit) :=
  fun st =>
    let (r, w) := search_companies q num_results (world st) in
    (inr r, mkSt w (trace st ++ [EvSearch q num_results])).

Definition scrape (url : string) : M (option string) :=
  fun st =>
    let (r, w) := scrape_company_pages url (world st) in
    (inr r, mkSt w (trace st ++ [EvScrape url])).

(** *** [_create_fallback_analysis] (lines 186-225) *)

Definition any_in (words : list string) (s : string) : bool :=
  existsb (fun word => PyStr.contains word s) words.

Definition fallback_pricing (content : string) : string :=
  let content_lower := PyStr.lower content in
  if any_in ["free"; "$0"; "no cost"] content_lower then "Free"
  else if any_in ["freemium"; "free tier"; "free plan"] content_lower then "Freemium"
  else if any_in ["enterprise"; "contact sales"] content_lower then "Enterprise"
  else if any_in ["$"; "price"; "paid"; "subscription"] content_lower then "Paid"
  else "Unknown".

Definition fallback_language_support (company_name : string) : list string :=
  if PyStr.contains "copilot" (PyStr.lower company_name)
  then ["Python"; "JavaScript"; "TypeScript"] else [].

Definition fallback_integration_capabilities (company_name : string) : list string :=
  let ic := [] in
  let ic := if PyStr.contains "github" (PyStr.lower company_name)
            then ["GitHub"; "VS Code"] else ic in
  let ic := if PyStr.contains "cursor" (PyStr.lower company_name)
            then ["VS Code"] else ic in
  let ic := if PyStr.contains "tabnine" (PyStr.lower company_name)
            then ["VS Code"; "IntelliJ"; "Sublime Text"] else ic in
  ic.

Definition _create_fallback_analysis
    (company_name llm_response content : string) : exn + CompanyAnalysis :=
  let description := company_name +:+ " is a developer tool" in
  let pricing_model := fallback_pricing content in
  let tech_stack : list string := [] in
  let language_support := fallback_language_support company_name in
  let integration_capabilities := fallback_integration_capabilities company_name in
  Models.CompanyAnalysis_new
    (<["pricing_model" := PStr pricing_model]>
     (<["is_open_source" := PNone]>
     (<["tech_stack" := PList (PStr <$> tech_stack)]>
     (<["description" := PStr description]>
     (<["api_available" := PNone]>
     (<["language_support" := PList (PStr <$> language_support)]>
     (<["integration_capabilities" := PList (PStr <$> integration_capabilities)]>
      ∅))))))).

(** *** [_analyze_company_content] (lines 90-184) *)

Definition max_retries : nat := 2.

(** Lines 144-158: a string under [key] becomes a boolean or [None]. *)
Definition coerce_bool (key : string) (data : gmap string pyval) : gmap string pyval :=
  match data !! key with
  | Some (PStr s) =>
      if String.eqb (PyStr.lower s) "true" then <[key := PBool true]> data
      else if String.eqb (PyStr.lower s) "false" then <[key := PBool false]> data
      else <[key := PNone]> data
  | _ => data
  end.

(** Lines 161-165, one field. *)
Definition ensure_list (data : gmap string pyval) (field : string) : gmap string pyval :=
  match data !! field with
  | None => <[field := PList []]> data
  | Some v => if is_list v then data else <[field := PList []]> data
  end.

(** Lines 168-171. *)
Definition ensure_present (key : string) (dflt : pyval) (data : gmap string pyval)
  : gmap string pyval :=
  match data !! key with
  | None => <[key := dflt]> data
  | Some _ => data
  end.

(** Lines 143-171 on the parsed dictionary. *)
Definition normalise (data : gmap string pyval) : gmap string pyval :=
  let data := coerce_bool "is_open_source" data in
  let data := coerce_bool "api_available" data in
  let data := fold_left ensure_list
                ["tech_stack"; "language_support"; "integration_capabilities"] data in
  let data := ensure_present "pricing_model" (PStr "Unknown") data in
  let data := ensure_present "description" (PStr "No description available") data in
  data.

(** Lines 140-174: parse, repair, construct.  [data.get] on a value that is
    not a dictionary raises. *)
Definition parse_and_build (json_str : string) : exn + CompanyAnalysis :=
  match json_loads json_str with
  | None => inl JSONDecodeError
  | Some (PDict data) => Models.CompanyAnalysis_new (normalise data)
  | Some _ => inl AttributeError
  end.

(** Lines 117-122: strip the fences. *)
Definition strip_fences (json_str : string) : string :=
  let json_str :=
    if PyStr.startswith "```json" json_str then PyStr.drop 7 json_str else json_str in
  let json_str :=
    if PyStr.endswith "```" json_str then PyStr.drop_last 3 json_str else json_str in
  PyStr.strip json_str.

(** [response.content.strip()] *)
Definition content_strip (c : pyval) : exn + string :=
  match c with
  | PStr s => inr (PyStr.strip s)
  | _ => inl AttributeError
  end.

(** The body of the [try] for one attempt (lines 95-174). *)
Definition attempt_try (company_name content : string) (attempt : nat)
  : M (loop_ctl CompanyAnalysis) :=
  c <- invoke (ToolAnalysis company_name (PyStr.take 2000 content)) ;;
  json_str <- lift (content_strip c) ;;
  if PyStr.is_empty json_str then
    if (attempt <? max_retries - 1)%nat then ret Continue
    else raise (ValueError "Empty response from LLM")
  else
    let json_str := strip_fences json_str in
    if negb (PyStr.startswith "{" json_str) then
      let start_idx := PyStr.find "{" json_str in
      let end_idx := PyStr.rfind "}" json_str in
      if negb (start_idx =? -1) && negb (end_idx =? -1) then
        a <- lift (parse_and_build (PyStr.slice start_idx (end_idx + 1) json_str)) ;;
        ret (Return a)
      else if (attempt <? max_retries - 1)%nat then ret Continue
      else
        a <- lift (_create_fallback_analysis company_name json_str content) ;;
        ret (Return a)
    else
      a <- lift (parse_and_build json_str) ;;
      ret (Return a).

(** One iteration of [for attempt in range(max_retries)], with its
    [except Exception] handler (lines 176-184). *)
Definition attempt_body (company_name content : string) (attempt : nat)
  : M (loop_ctl CompanyAnalysis) :=
  try_except (attempt_try company_name content attempt)
    (fun e =>
       if (attempt <? max_retries - 1)%nat then ret Continue
       else
         a <- lift (_create_fallback_analysis company_name "" content) ;;
         ret (Return a)).

(** The [for] loop; a loop that runs out returns Python's [None]. *)
Fixpoint for_attempts (company_name content : string) (attempts : list nat)
  : M (option CompanyAnalysis) :=
  match attempts with
  | [] => ret None
  | attempt :: rest =>
      r <- attempt_body company_name content attempt ;;
      match r with
      | Continue => for_attempts company_name content rest
      | Return a => ret (Some a)
      end
  end.

Definition _analyze_company_content (company_name content : string)
  : M (option CompanyAnalysis) :=
  for_attempts company_name content (seq 0 max_retries).

(** *** [_extract_tools_step] (lines 42-88) *)

(** [for x in l: acc = f acc x], where [f] may raise. *)
Fixpoint foldM {A B} (f : A -> B -> M A) (l : list B) (acc : A) : M A :=
  match l with
  | [] => ret acc
  | x :: rest => acc' <- f acc x ;; foldM f rest acc'
  end.

Definition blank_line : string := String newline (String newline EmptyString).

(** Lines 52-58, one search result. *)
Definition article_content_step (all_content : string) (result : search_hit) : M string :=
  let url := default "" (hit_url result) in
  if PyStr.endswith ".pdf" url then ret all_content
  else
    scraped <- scrape url ;;
    match scraped with
    | Some markdown =>
        if negb (PyStr.is_empty (PyStr.strip markdown))
        then ret (all_content +:+ PyStr.take 1500 markdown +:+ blank_line)
        else ret all_content
    | None => ret all_content
    end.

(** Lines 45-58: the article text handed to the model. *)
Definition gather_articles (state : ResearchState) : M string :=
  let article_query := query state +:+ " tools comparison best alternatives" in
  results_data <- search article_query 3 ;;
  foldM article_content_step results_data "".

(** Lines 65-88: the model call and the classifier, inside [try]. *)
Definition extract_from (state : ResearchState) (all_content : string) : M (list string) :=
  try_except
    (c <- invoke (ToolExtraction (query state) all_content) ;;
     ret (match c with
          | PStr s => Classifier.classify s
          | _ => []
          end))
    (fun e => ret []).

Definition _extract_tools_step (state : ResearchState) : M (list string) :=
  all_content <- gather_articles state ;;
  extract_from state all_content.

(** *** [_research_step] (lines 227-278) *)

(** Lines 228-240. *)
Definition research_tool_names (state : ResearchState) : M (list string) :=
  match extracted_tools state with
  | [] =>
      results_data <- search (query state) 4 ;;
      ret (map (fun result => default "Unknown" (hit_title result)) results_data)
  | _ => ret (firstn 4 (extracted_tools state))
  end.

(** Lines 245-276, one tool name; [analysis.pricing_model] on [None]
    raises. *)
Definition research_tool (companies : list CompanyInfo) (tool_name : string)
  : M (list CompanyInfo) :=
  tool_results_data <- search (tool_name +:+ " official site") 1 ;;
  match tool_results_data with
  | [] => ret companies
  | result :: _ =>
      let url := default "" (hit_url result) in
      let company :=
        mkCompanyInfo tool_name (PStr (default "" (hit_markdown result))) url
          (PList []) [] PNone PNone PNone (PList []) (PList []) in
      scraped <- scrape url ;;
      let content := default "" scraped in
      analysis <- _analyze_company_content (ci_name company) content ;;
      match analysis with
      | None => raise AttributeError
      | Some a =>
          ret (companies ++
               [mkCompanyInfo (ci_name company) (description a) (ci_website company)
                  (tech_stack a) (ci_competitors company) (pricing_model a)
                  (is_open_source a) (api_available a) (language_support a)
                  (integration_capabilities a)])
      end
  end.

Definition _research_step (state : ResearchState) : M (list CompanyInfo) :=
  tool_names <- research_tool_names state ;;
  foldM research_tool tool_names [].

(** *** [_analyze_step] (lines 280-294) and [run] *)

Definition _analyze_step (state : ResearchState) : M pyval :=
  let company_data := PyStr.join ", " (map company_json (companies state)) in
  invoke (Recommendations (query state) company_data).

(** The stages after extraction, and after research. *)
Definition run_from_analyze (state : ResearchState) : M ResearchState :=
  a <- _analyze_step state ;;
  ret (mkResearchState (query state) (extracted_tools state) (companies state) (Some a)).

Definition run_from_research (state : ResearchState) : M ResearchState :=
  cs <- _research_step state ;;
  run_from_analyze
    (mkResearchState (query state) (extracted_tools state) cs (analysis state)).

(** The compiled graph: extract_tools, research, analyze, END. *)
Definition run (q : string) : M ResearchState :=
  let initial_state := mkResearchState q [] [] None in
  tools <- _extract_tools_step initial_state ;;
  run_from_research
    (mkResearchState (query initial_state) tools (companies initial_state)
       (analysis initial_state)).

(** *** Reading a trace *)

(** [m] returns from every state, extends the trace by some [d], and its
    outcome [r] and [d] satisfy [P]. *)
Definition spec {A} (m : M A) (P : exn + A -> list event -> Prop) : Prop :=
  forall st, exists r st' d,
    m st = (r, st') /\ trace st' = trace st ++ d /\ P r d.

(** [m] never raises, and its value [a] and [d] satisfy [P]. *)
Definition runs {A} (m : M A) (P : A -> list event -> Prop) : Prop :=
  spec m (fun r d => exists a, r = inr a /\ P a d).

(** The state after one model call with prompt [p]. *)
Definition after_invoke (p : prompt) (st : St) : St :=
  mkSt (snd (llm p (world st))) (trace st ++ [EvInvoke p]).

Definition analysis_prompt (company_name content : string) : prompt :=
  ToolAnalysis company_name (PyStr.take 2000 content).

(** Lines 117-138 as a function of the stripped, non-empty response: the
    text handed to [json.loads], or [None] when no JSON is found. *)
Definition json_candidate (json_str : string) : option string :=
  let json_str := strip_fences json_str in
  if negb (PyStr.startswith "{" json_str) then
    let start_idx := PyStr.find "{" json_str in
    let end_idx := PyStr.rfind "}" json_str in
    if negb (start_idx =? -1) && negb (end_idx =? -1)
    then Some (PyStr.slice start_idx (end_idx + 1) json_str)
    else None
  else Some json_str.

(** What one model call contributes: the analysis parsed from it, or
    nothing (it raised, answered something that is not text, nothing, no
    JSON, or JSON that does not parse or validate). *)
Definition attempt_result (o : llm_outcome) : option CompanyAnalysis :=
  match o with
  | LlmResponse (PStr c) =>
      let json_str := PyStr.strip c in
      if PyStr.is_empty json_str then None
      else match json_candidate json_str with
           | Some j =>
               match parse_and_build j with
               | inr a => Some a
               | inl _ => None
               end
           | None => None
           end
  | _ => None
  end.

(** The record of lines 217-225. *)
Definition fallback_record (company_name content : string) : CompanyAnalysis :=
  mkCompanyAnalysis
    (PStr (fallback_pricing content)) PNone (PList [])
    (PStr (company_name +:+ " is a developer tool")) PNone
    (PList (PStr <$> fallback_language_support company_name))
    (PList (PStr <$> fallback_integration_capabilities company_name)).

(** The analysis attributes of a company record. *)
Definition company_analysis (c : CompanyInfo) : CompanyAnalysis :=
  mkCompanyAnalysis (ci_pricing_model c) (ci_is_open_source c) (ci_tech_stack c)
    (ci_description c) (ci_api_available c) (ci_language_support c)
    (ci_integration_capabilities c).

(** A scrape of a page that is not a PDF. *)
Definition is_page_scrape (e : event) : Prop :=
  exists url, e = EvScrape url /\ PyStr.endswith ".pdf" url = false.

Definition is_scrape (e : event) : bool :=
  match e with EvScrape _ => true | _ => false end.

(** The tool names that [_research_step] goes through (lines 228-240),
    read in the world in which the stage starts: the titles of the direct
    search when there is no candidate, else the first four candidates. *)
Definition researched_names (state : ResearchState) (w : World) : list string :=
  match extracted_tools state with
  | [] =>
      map (fun result => default "Unknown" (hit_title result))
        (fst (search_companies (query state) 4 w))
  | _ => firstn 4 (extracted_tools state)
  end.

(** The record that lines 254-274 build for a tool from the first search
    result's URL and the analysis. *)
Definition tool_record (tool_name url : string) (a : CompanyAnalysis) : CompanyInfo :=
  mkCompanyInfo tool_name (description a) url (tech_stack a) [] (pricing_model a)
    (is_open_source a) (api_available a) (language_support a)
    (integration_capabilities a).

(** The analysis attributes of [c] are those of an analysis that
    [_analyze_company_content] returned for its name. *)
Definition record_of_analysis (c : CompanyInfo) : Prop :=
  exists content st st',
    _analyze_company_content (ci_name c) content st
      = (inr (Some (company_analysis c)), st').

(** For a provider whose results are [found], whether the official-site
    search of a tool name returns anything. *)
Definition has_result (found : string -> nat -> list search_hit) (tool_name : string)
  : bool :=
  match found (tool_name +:+ " official site") 1%nat with
  | [] => false
  | _ :: _ => true
  end.

(** What one loop iteration may hand back: a request for another attempt,
    only before the last one, or a well-formed analysis. *)
Definition attempt_post (attempt : nat) (x : loop_ctl CompanyAnalysis) : Prop :=
  match x with
  | Continue => (attempt < max_retries - 1)%nat
  | Return a => analysis_ok a
  end.


Definition is_invoke (e : event) : bool :=
  match e with EvInvoke _ => true | _ => false end.

Definition is_search (e : event) : bool :=
  match e with EvSearch _ _ => true | _ => false end.

(** The model calls in a trace, and the search calls in a trace. *)
Definition invocations (t : list event) : list event := List.filter is_invoke t.
Definition searches (t : list event) : list event := List.filter is_search t.

Inductive prompt_kind : Type := KExtraction | KAnalysis | KRecommendation.

Definition is_call (k : prompt_kind) (e : event) : bool :=
  match k, e with
  | KExtraction, EvInvoke (ToolExtraction _ _) => true
  | KAnalysis, EvInvoke (ToolAnalysis _ _) => true
  | KRecommendation, EvInvoke (Recommendations _ _) => true
  | _, _ => false
  end.

(** The number of model calls with a prompt of kind [k] in a trace. *)
Definition calls (k : prompt_kind) (t : list event) : nat :=
  length (List.filter (is_call k) t).

(** A search for a single result: the per-tool searches are the only
    ones ([_extract_tools_step] asks for 3, the direct search for 4). *)
Definition is_tool_search (e : event) : bool :=
  match e with
  | EvSearch _ 1 => true
  | _ => false
  end.

Definition tool_searches (t : list event) : nat :=
  length (List.filter is_tool_search t).

(** No model call and no single-result search. *)
Definition quiet (d : list event) : Prop :=
  calls KExtraction d = 0%nat /\ calls KAnalysis d = 0%nat /\
  calls KRecommendation d = 0%nat /\ tool_searches d = 0%nat.

(** The search that [_research_step] issues for one tool name. *)
Definition official_site_search (tool_name : string) : event :=
  EvSearch (tool_name +:+ " official site") 1.

(** ** Properties of the recovery engine *)

Lemma forallb_is_str (l : list string) : forallb is_str (PStr <$> l) = true.
Proof. induction l; simpl; auto. Qed.

Lemma fallback_pricing_enum content : is_pricing (PStr (fallback_pricing content)) = true.
Proof.
  unfold fallback_pricing.
  repeat match goal with |- context [if ?b then _ else _] => destruct b end;
    reflexivity.
Qed.

(** The record that the fallback builds. *)
Lemma fallback_value company_name llm_response content :
  _create_fallback_analysis company_name llm_response content =
  inr (mkCompanyAnalysis
         (PStr (fallback_pricing content)) PNone (PList [])
         (PStr (company_name +:+ " is a developer tool")) PNone
         (PList (PStr <$> fallback_language_support company_name))
         (PList (PStr <$> fallback_integration_capabilities company_name))).
Proof.
  unfold _create_fallback_analysis, Models.CompanyAnalysis_new.
  simplify_map_eq. simpl.
  pose proof (fallback_pricing_enum content) as Hp. simpl in Hp.
  rewrite Hp, !forallb_is_str. reflexivity.
Qed.

Lemma CompanyAnalysis_new_ok kw a :
  Models.CompanyAnalysis_new kw = inr a -> analysis_ok a.
Proof.
  unfold Models.CompanyAnalysis_new.
  destruct (_ && _) eqn:E; [|discriminate].
  intros [= <-]. repeat (apply andb_true_iff in E as [E ?]).
  unfold analysis_ok; simpl.
  repeat split; try assumption;
    match goal with
    | H : is_str_list ?v = true |- is_list ?v = true => by destruct v
    end.
Qed.

Lemma fallback_ok company_name llm_response content :
  exists a, _create_fallback_analysis company_name llm_response content = inr a
            /\ analysis_ok a.
Proof.
  pose proof (fallback_value company_name llm_response content) as H.
  eexists; split; [exact H|].
  unfold _create_fallback_analysis in H. by apply CompanyAnalysis_new_ok in H.
Qed.

Lemma parse_and_build_ok json_str a :
  parse_and_build json_str = inr a -> analysis_ok a.
Proof.
  unfold parse_and_build.
  destruct (json_loads json_str) as [[]|]; try discriminate.
  apply CompanyAnalysis_new_ok.
Qed.

Local Opaque PyStr.strip PyStr.startswith PyStr.endswith PyStr.find PyStr.rfind
  PyStr.slice PyStr.take PyStr.is_empty PyStr.contains PyStr.lower.

Ltac case_step :=
  match goal with
  | |- context [_create_fallback_analysis ?n ?r ?c] =>
      rewrite (fallback_value n r c)
  | |- context [(?a <? ?b)%nat] =>
      let E := fresh "E" in destruct (a <? b)%nat eqn:E
  | |- context [parse_and_build ?j] =>
      let E := fresh "E" in destruct (parse_and_build j) eqn:E
  | |- context [if ?b then _ else _] => destruct b
  | |- context [match ?x with _ => _ end] => destruct x
  end.

(** One attempt calls the model once and either asks for another
    attempt, which only an attempt before the last may do, or returns a
    well-formed analysis; it never raises. *)
Lemma attempt_body_run company_name content attempt st :
  exists x,
    attempt_body company_name content attempt st
      = (inr x, after_invoke (analysis_prompt company_name content) st)
    /\ attempt_post attempt x.
Proof.
  unfold attempt_body, try_except, attempt_try, after_invoke, analysis_prompt,
    invoke, bind, lift, ret, raise, content_strip, attempt_post.
  generalize (max_retries - 1)%nat; intros last.
  destruct (llm _ (world st)) as [o w]; cbn [snd].
  destruct o as [e|[]]; cbn [world trace];
  repeat (case_step; cbn [world trace negb andb]);
    eexists; (split; [reflexivity|]); simpl;
    try (apply Nat.ltb_lt; assumption);
    try (eapply parse_and_build_ok; eassumption);
    try (eapply CompanyAnalysis_new_ok;
         match goal with
         | |- context [fallback_pricing ?c] =>
             exact (fallback_value company_name "" c)
         end).
Qed.

(** Both attempts together: a well-formed analysis after one or two model
    calls, and no other effect. *)
Lemma analyze_run company_name content st :
  let p := analysis_prompt company_name content in
  exists a st',
    _analyze_company_content company_name content st = (inr (Some a), st')
    /\ analysis_ok a
    /\ (st' = after_invoke p st \/ st' = after_invoke p (after_invoke p st)).
Proof.
  intros p. unfold _analyze_company_content. cbn [seq max_retries for_attempts].
  subst p.
  unfold bind at 1.
  destruct (attempt_body_run company_name content 0%nat st) as [x [E Hx]].
  rewrite E. destruct x as [|a]; cbv beta iota.
  - unfold bind at 1.
    destruct (attempt_body_run company_name content 1%nat
                (after_invoke (analysis_prompt company_name content) st))
      as [y [E' Hy]].
    rewrite E'. destruct y as [|a]; cbv beta iota.
    + simpl in Hy. unfold max_retries in Hy. lia.
    + eexists a, _. eauto.
  - eexists a, _. eauto.
Qed.

Lemma after_invoke_trace p st :
  trace (after_invoke p st) = trace st ++ [EvInvoke p].
Proof. reflexivity. Qed.

(** ** A small logic of traces *)

Lemma spec_weaken {A} (m : M A) (P Q : exn + A -> list event -> Prop) :
  spec m P -> (forall r d, P r d -> Q r d) -> spec m Q.
Proof.
  intros Hm HPQ st. destruct (Hm st) as (r & st' & d & E & Ht & HP).
  exists r, st', d. auto.
Qed.

Lemma runs_weaken {A} (m : M A) (P Q : A -> list event -> Prop) :
  runs m P -> (forall a d, P a d -> Q a d) -> runs m Q.
Proof.
  intros Hm HPQ. eapply spec_weaken; [exact Hm|].
  intros r d (a & -> & HP). eauto.
Qed.

Lemma runs_ret {A} (a : A) : runs (ret a) (fun x d => x = a /\ d = []).
Proof.
  intros st. exists (inr a), st, []. rewrite app_nil_r.
  split; [done|]. split; [done|]. by exists a.
Qed.

Lemma runs_then {A B} (m : M A) (k : A -> M B) P Q :
  runs m P -> (forall a, spec (k a) (Q a)) ->
  spec (bind m k)
    (fun r d => exists a d1 d2, P a d1 /\ Q a r d2 /\ d = d1 ++ d2).
Proof.
  intros Hm Hk st. destruct (Hm st) as (r & st1 & d1 & E & Ht & a & -> & HP).
  destruct (Hk a st1) as (r2 & st2 & d2 & E2 & Ht2 & HQ).
  exists r2, st2, (d1 ++ d2). unfold bind. rewrite E, E2.
  split; [done|]. split; [by rewrite Ht2, Ht, app_assoc|]. eauto 10.
Qed.

Lemma runs_bind {A B} (m : M A) (k : A -> M B) P Q :
  runs m P -> (forall a, runs (k a) (Q a)) ->
  runs (bind m k)
    (fun b d => exists a d1 d2, P a d1 /\ Q a b d2 /\ d = d1 ++ d2).
Proof.
  intros Hm Hk. eapply spec_weaken; [exact (runs_then m k P _ Hm Hk)|].
  intros r d (a & d1 & d2 & HP & (b & -> & HQ) & ->). eauto 10.
Qed.

Lemma spec_invoke p : spec (invoke p) (fun _ d => d = [EvInvoke p]).
Proof.
  intros st. unfold invoke. destruct (llm p (world st)) as [[e|c] w];
    eexists _, _, _; (split; [done|]); split; done.
Qed.

Lemma runs_search q n : runs (search q n) (fun _ d => d = [EvSearch q n]).
Proof.
  intros st. unfold search. destruct (search_companies q n (world st)) as [r w].
  eexists _, _, _. split; [done|]. split; [done|]. by exists r.
Qed.

Lemma runs_scrape url : runs (scrape url) (fun _ d => d = [EvScrape url]).
Proof.
  intros st. unfold scrape. destruct (scrape_company_pages url (world st)) as [r w].
  eexists _, _, _. split; [done|]. split; [done|]. by exists r.
Qed.

Lemma runs_analyze company_name content :
  runs (_analyze_company_content company_name content)
    (fun r d =>
       (exists a, r = Some a /\ analysis_ok a) /\
       exists n, (1 <= n <= 2)%nat /\
                 d = replicate n (EvInvoke (analysis_prompt company_name content))).
Proof.
  intros st.
  destruct (analyze_run company_name content st) as (a & st' & E & Hok & Hst).
  set (p := analysis_prompt company_name content) in *.
  destruct Hst as [-> | ->].
  - exists (inr (Some a)), (after_invoke p st), (replicate 1 (EvInvoke p)).
    split; [done|]. split; [done|].
    exists (Some a). split; [done|]. split; [by exists a|].
    exists 1%nat. split; [lia|done].
  - exists (inr (Some a)), (after_invoke p (after_invoke p st)),
      (replicate 2 (EvInvoke p)).
    split; [done|]. split; [by rewrite !after_invoke_trace, <- app_assoc|].
    exists (Some a). split; [done|]. split; [by exists a|].
    exists 2%nat. split; [lia|done].
Qed.

Lemma calls_app k d1 d2 : calls k (d1 ++ d2) = (calls k d1 + calls k d2)%nat.
Proof. unfold calls. by rewrite List.filter_app, length_app. Qed.

Lemma tool_searches_app d1 d2 :
  tool_searches (d1 ++ d2) = (tool_searches d1 + tool_searches d2)%nat.
Proof. unfold tool_searches. by rewrite List.filter_app, length_app. Qed.

Lemma searches_app d1 d2 : searches (d1 ++ d2) = searches d1 ++ searches d2.
Proof. apply List.filter_app. Qed.

Lemma calls_analysis_replicate n p c :
  calls KAnalysis (replicate n (EvInvoke (analysis_prompt p c))) = n
  /\ calls KExtraction (replicate n (EvInvoke (analysis_prompt p c))) = 0%nat
  /\ calls KRecommendation (replicate n (EvInvoke (analysis_prompt p c))) = 0%nat
  /\ searches (replicate n (EvInvoke (analysis_prompt p c))) = []
  /\ tool_searches (replicate n (EvInvoke (analysis_prompt p c))) = 0%nat.
Proof.
  unfold calls, tool_searches, searches.
  induction n as [|n (IH1 & IH2 & IH3 & IH4 & IH5)]; simpl; [done|].
  rewrite IH1. auto.
Qed.

(** ** The stages, by their traces *)

(** One tool name: one single-result search, at most two analysis calls,
    and no exception. *)
Lemma runs_research_tool companies tool_name :
  runs (research_tool companies tool_name)
    (fun _ d =>
       searches d = [official_site_search tool_name] /\
       tool_searches d = 1%nat /\
       (calls KAnalysis d <= 2)%nat /\
       calls KExtraction d = 0%nat /\
       calls KRecommendation d = 0%nat).
Proof.
  intros st. unfold research_tool, bind, search.
  destruct (search_companies _ 1%nat (world st)) as [hits w1].
  destruct hits as [|result hits'].
  - eexists (inr companies), _, [official_site_search tool_name].
    split; [reflexivity|]. split; [done|]. exists companies.
    split; [done|]. cbn. repeat split; lia.
  - unfold scrape. cbn [world trace ci_name].
    destruct (scrape_company_pages _ w1) as [scraped w2].
    set (url := default "" (hit_url result)).
    set (content := default "" scraped).
    set (st2 := mkSt w2 _).
    destruct (runs_analyze tool_name content st2)
      as (r & st3 & d & E & Ht & oa & -> & (a & -> & Hok) & n & Hn & ->).
    rewrite E. cbv beta iota. unfold ret.
    eexists (inr _), st3,
      ([official_site_search tool_name; EvScrape url]
         ++ replicate n (EvInvoke (analysis_prompt tool_name content))).
    split; [reflexivity|].
    split; [rewrite Ht; unfold st2; cbn [trace]; by rewrite <- !app_assoc|].
    eexists; split; [reflexivity|].
    destruct (calls_analysis_replicate n tool_name content)
      as (H1 & H2 & H3 & H4 & H5).
    rewrite searches_app, tool_searches_app, !calls_app, H1, H2, H3, H4, H5.
    cbn. repeat split; lia.
Qed.

Lemma runs_research_loop tool_names : forall companies,
  runs (foldM research_tool tool_names companies)
    (fun _ d =>
       searches d = map official_site_search tool_names /\
       tool_searches d = length tool_names /\
       (calls KAnalysis d <= 2 * length tool_names)%nat /\
       calls KExtraction d = 0%nat /\
       calls KRecommendation d = 0%nat).
Proof.
  induction tool_names as [|tool_name rest IH]; intros companies;
    cbn [foldM].
  - eapply runs_weaken; [apply runs_ret|].
    intros a d [_ ->]. cbn. repeat split; lia.
  - eapply runs_weaken.
    + eapply runs_bind; [apply runs_research_tool|]. intros a. apply IH.
    + cbv beta. intros b d (a & d1 & d2 & H1 & H2 & ->).
      destruct H1 as (S1 & T1 & A1 & X1 & R1), H2 as (S2 & T2 & A2 & X2 & R2).
      rewrite searches_app, tool_searches_app, !calls_app, S1, S2.
      cbn [map length]. repeat split; lia.
Qed.

Lemma runs_research_tool_names state :
  runs (research_tool_names state)
    (fun tool_names d =>
       match extracted_tools state with
       | [] => d = [EvSearch (query state) 4]
       | _ => tool_names = firstn 4 (extracted_tools state) /\ d = []
       end).
Proof.
  unfold research_tool_names. destruct (extracted_tools state) as [|t ts].
  - eapply runs_weaken.
    + eapply runs_bind; [apply runs_search|]. intros a. apply runs_ret.
    + cbv beta. intros b d (a & d1 & d2 & -> & [_ ->] & ->). done.
  - eapply runs_weaken; [apply runs_ret|]. cbv beta. intros a d [-> ->]. done.
Qed.

Lemma runs_research_step state :
  runs (_research_step state)
    (fun _ d =>
       calls KExtraction d = 0%nat /\
       calls KRecommendation d = 0%nat /\
       (calls KAnalysis d <= 2 * tool_searches d)%nat /\
       match extracted_tools state with
       | [] => True
       | _ => searches d = map official_site_search (firstn 4 (extracted_tools state))
       end).
Proof.
  unfold _research_step. eapply runs_weaken.
  - eapply runs_bind; [apply runs_research_tool_names|].
    intros tool_names. apply runs_research_loop.
  - cbv beta. intros b d (names & d1 & d2 & H1 & H2 & ->).
    destruct H2 as (S2 & T2 & A2 & X2 & R2).
    rewrite searches_app, tool_searches_app, !calls_app, S2, X2, R2, T2.
    destruct (extracted_tools state) as [|t ts].
    + subst d1. cbn. repeat split; lia.
    + destruct H1 as [-> ->]. cbn [app calls tool_searches List.filter length].
      repeat split; lia.
Qed.

Lemma quiet_app d1 d2 : quiet d1 -> quiet d2 -> quiet (d1 ++ d2).
Proof.
  unfold quiet. intros (A1 & B1 & C1 & D1) (A2 & B2 & C2 & D2).
  rewrite !calls_app, tool_searches_app. lia.
Qed.

Lemma runs_article_content_step all_content result :
  runs (article_content_step all_content result) (fun _ d => quiet d).
Proof.
  unfold article_content_step.
  destruct (PyStr.endswith ".pdf" _).
  - eapply runs_weaken; [apply runs_ret|]. intros a d [_ ->]. by cbv.
  - eapply runs_weaken.
    + eapply runs_bind; [apply runs_scrape|].
      intros scraped. instantiate (1 := fun _ _ d => d = []).
      destruct scraped as [markdown|];
        [destruct (negb _)|];
        (eapply runs_weaken; [apply runs_ret|]; by intros a d [_ ->]).
    + cbv beta. intros b d (a & d1 & d2 & -> & -> & ->). by cbv.
Qed.

Lemma runs_article_loop results : forall all_content,
  runs (foldM article_content_step results all_content) (fun _ d => quiet d).
Proof.
  induction results as [|result rest IH]; intros all_content; cbn [foldM].
  - eapply runs_weaken; [apply runs_ret|]. intros a d [_ ->]. by cbv.
  - eapply runs_weaken.
    + eapply runs_bind; [apply runs_article_content_step|]. intros a. apply IH.
    + cbv beta. intros b d (a & d1 & d2 & H1 & H2 & ->). by apply quiet_app.
Qed.

Lemma runs_gather_articles state :
  runs (gather_articles state) (fun _ d => quiet d).
Proof.
  unfold gather_articles. eapply runs_weaken.
  - eapply runs_bind; [apply runs_search|]. intros a. apply runs_article_loop.
  - cbv beta. intros b d (a & d1 & d2 & -> & H2 & ->).
    apply quiet_app; [by cbv|done].
Qed.

(** The model call of the extraction stage is made once, and what it
    raises is caught. *)
Lemma runs_extract_from state all_content :
  runs (extract_from state all_content)
    (fun _ d => d = [EvInvoke (ToolExtraction (query state) all_content)]).
Proof.
  intros st. unfold extract_from, try_except, bind, invoke, ret.
  destruct (llm _ (world st)) as [[e|c] w];
    eexists (inr _), _, _; (split; [reflexivity|]); (split; [reflexivity|]);
    eexists; split; reflexivity.
Qed.

Lemma runs_extract_tools_step state :
  runs (_extract_tools_step state)
    (fun _ d =>
       calls KExtraction d = 1%nat /\ calls KAnalysis d = 0%nat /\
       calls KRecommendation d = 0%nat /\ tool_searches d = 0%nat).
Proof.
  unfold _extract_tools_step. eapply runs_weaken.
  - eapply runs_bind; [apply runs_gather_articles|].
    intros a. apply runs_extract_from.
  - cbv beta. intros b d (a & d1 & d2 & (A1 & B1 & C1 & D1) & -> & ->).
    rewrite !calls_app, tool_searches_app, A1, B1, C1, D1. by cbv.
Qed.

(** The recommendation call is made once, raising or not. *)
Lemma spec_run_from_analyze state :
  spec (run_from_analyze state)
    (fun _ d =>
       calls KExtraction d = 0%nat /\ calls KAnalysis d = 0%nat /\
       calls KRecommendation d = 1%nat /\ tool_searches d = 0%nat).
Proof.
  intros st. unfold run_from_analyze, _analyze_step, bind, invoke, ret.
  destruct (llm _ (world st)) as [[e|c] w];
    eexists _, _, _; (split; [reflexivity|]); (split; [reflexivity|]); by cbv.
Qed.

Lemma spec_run q :
  spec (run q)
    (fun _ d =>
       calls KExtraction d = 1%nat /\
       calls KRecommendation d = 1%nat /\
       (calls KAnalysis d <= 2 * tool_searches d)%nat).
Proof.
  unfold run, run_from_research. eapply spec_weaken.
  - eapply runs_then; [apply runs_extract_tools_step|]. intros tools.
    eapply runs_then; [apply runs_research_step|]. intros cs.
    apply spec_run_from_analyze.
  - cbv beta.
    intros r d (tools & d1 & d23 & (A1 & B1 & C1 & D1)
                & (cs & d2 & d3 & (A2 & C2 & B2 & _) & (A3 & B3 & C3 & D3) & ->)
                & ->).
    rewrite !calls_app, !tool_searches_app. lia.
Qed.

(** ** The dictionary handed to the constructor (lines 143-171) *)

Lemma ensure_list_self data field :
  exists l, ensure_list data field !! field = Some (PList l).
Proof.
  unfold ensure_list. destruct (data !! field) as [v|] eqn:E.
  - destruct v; simpl; simplify_map_eq; eauto.
  - simplify_map_eq; eauto.
Qed.

Lemma ensure_list_other data field key :
  field <> key -> ensure_list data field !! key = data !! key.
Proof.
  intros Hne. unfold ensure_list.
  destruct (data !! field) as [v|]; [destruct (is_list v)|];
    by simplify_map_eq.
Qed.

Lemma ensure_present_other key dflt data k :
  key <> k -> ensure_present key dflt data !! k = data !! k.
Proof.
  intros Hne. unfold ensure_present. destruct (data !! key); by simplify_map_eq.
Qed.

Lemma ensure_present_self key dflt data :
  is_Some (ensure_present key dflt data !! key).
Proof.
  unfold ensure_present. destruct (data !! key) eqn:E.
  - rewrite E. eauto.
  - rewrite lookup_insert_eq. eauto.
Qed.

Lemma coerce_bool_self key data s :
  coerce_bool key data !! key <> Some (PStr s).
Proof.
  unfold coerce_bool. destruct (data !! key) as [v|] eqn:E.
  - destruct v; try (rewrite E; discriminate).
    repeat case_match; by simplify_map_eq.
  - by rewrite E.
Qed.

Lemma coerce_bool_other key data k :
  key <> k -> coerce_bool key data !! k = data !! k.
Proof.
  intros Hne. unfold coerce_bool.
  destruct (data !! key) as [v|]; [|done].
  destruct v; try done. repeat case_match; by simplify_map_eq.
Qed.

(** After the repairs the three list fields hold lists, the two boolean
    fields hold no string, and the two required fields are present. *)
Lemma normalise_shape data :
  (forall field,
     field ∈ ["tech_stack"; "language_support"; "integration_capabilities"] ->
     exists l, normalise data !! field = Some (PList l)) /\
  (forall key s,
     key ∈ ["is_open_source"; "api_available"] ->
     normalise data !! key <> Some (PStr s)) /\
  is_Some (normalise data !! "pricing_model") /\
  is_Some (normalise data !! "description").
Proof.
  unfold normalise. cbn [fold_left]. split; [|split; [|split]].
  - intros field Hf.
    apply elem_of_cons in Hf as [->|Hf];
      [|apply elem_of_cons in Hf as [->|Hf];
        [|apply list_elem_of_singleton in Hf as ->]];
      rewrite !ensure_present_other by done.
    + rewrite !ensure_list_other by done. apply ensure_list_self.
    + rewrite ensure_list_other by done. apply ensure_list_self.
    + apply ensure_list_self.
  - intros key s Hk.
    apply elem_of_cons in Hk as [->|Hk];
      [|apply list_elem_of_singleton in Hk as ->];
      rewrite !ensure_present_other by done;
      rewrite !ensure_list_other by done.
    + rewrite coerce_bool_other by done. apply coerce_bool_self.
    + apply coerce_bool_self.
  - rewrite (ensure_present_other "description") by done.
    apply ensure_present_self.
  - apply ensure_present_self.
Qed.

Local Transparent PyStr.strip PyStr.startswith PyStr.endswith PyStr.find PyStr.rfind
  PyStr.slice PyStr.take PyStr.is_empty PyStr.contains PyStr.lower.

(** The code's chain of [if]/[elif] is the spec's first-match scan. *)
Lemma fallback_pricing_scan content :
  fallback_pricing content = Spec.pricing_scan content.
Proof. reflexivity. Qed.

(** ** The claims about the recovery engine and the stages *)

(** C1: for every tool name and content snippet, and whatever the model
    does (raise, answer with an empty string, with malformed or fenced
    text, with a value that is not text), [_analyze_company_content]
    returns an analysis and does not raise. *)
Theorem analyze_never_raises company_name content st :
  exists a st',
    _analyze_company_content company_name content st = (inr (Some a), st').
Proof.
  destruct (analyze_run company_name content st) as (a & st' & E & _).
  eauto.
Qed.

(** C2: every analysis the recovery engine produces, by parsing or by the
    fallback, has lists in its three list fields, one of the five pricing
    values, and [True], [False] or [None] in its two optional booleans; on
    the parsing path the repaired dictionary already has the lists and no
    string in a boolean field. *)
Theorem analysis_invariant :
  (forall company_name llm_response content,
     exists a, _create_fallback_analysis company_name llm_response content = inr a
               /\ analysis_ok a) /\
  (forall json_str,
     match parse_and_build json_str with
     | inr a => analysis_ok a
     | inl _ => True
     end) /\
  (forall data,
     Forall (fun field => exists l, normalise data !! field = Some (PList l))
       ["tech_stack"; "language_support"; "integration_capabilities"]) /\
  (forall data,
     Forall (fun key => forall s, normalise data !! key <> Some (PStr s))
       ["is_open_source"; "api_available"]) /\
  (forall company_name content st,
     exists a st',
       _analyze_company_content company_name content st = (inr (Some a), st')
       /\ analysis_ok a).
Proof.
  split; [apply fallback_ok|].
  split.
  { intros json_str. destruct (parse_and_build json_str) eqn:E; [done|].
    by apply parse_and_build_ok in E. }
  split.
  { intros data. apply Forall_forall. intros field Hf.
    by apply normalise_shape. }
  split.
  { intros data. apply Forall_forall. intros key Hk s.
    by apply normalise_shape. }
  intros company_name content st.
  destruct (analyze_run company_name content st) as (a & st' & E & Hok & _).
  eauto.
Qed.

(** C6: with five or more extracted candidates, the research stage issues
    its per-tool searches for the first four, in order, and for nothing
    else. *)
Theorem research_first_four state st :
  (5 <= length (extracted_tools state))%nat ->
  exists cs st' d,
    _research_step state st = (inr cs, st')
    /\ trace st' = trace st ++ d
    /\ searches d = map official_site_search (firstn 4 (extracted_tools state))
    /\ length (searches d) = 4%nat.
Proof.
  intros Hlen.
  destruct (runs_research_step state st)
    as (r & st' & d & E & Ht & cs & -> & _ & _ & _ & Hs).
  exists cs, st', d. split; [done|]. split; [done|].
  destruct (extracted_tools state) as [|t ts] eqn:Et; [simpl in Hlen; lia|].
  split; [done|].
  rewrite Hs, length_map, length_take. lia.
Qed.

(** C7: when the model answers both attempts with an empty response, the
    result is the fallback analysis: the description is the tool name
    followed by " is a developer tool", and the pricing model is the
    first-match scan of the lower-cased content over the four keyword
    groups in the order Free, Freemium, Enterprise, Paid, else Unknown. *)
Theorem empty_responses_fallback company_name content st c1 w1 c2 w2 :
  let p := analysis_prompt company_name content in
  llm p (world st) = (LlmResponse (PStr c1), w1) ->
  PyStr.strip c1 = "" ->
  llm p w1 = (LlmResponse (PStr c2), w2) ->
  PyStr.strip c2 = "" ->
  _analyze_company_content company_name content st =
    (inr (Some (mkCompanyAnalysis
                  (PStr (Spec.pricing_scan content)) PNone (PList [])
                  (PStr (company_name +:+ " is a developer tool")) PNone
                  (PList (PStr <$> fallback_language_support company_name))
                  (PList (PStr <$> fallback_integration_capabilities company_name)))),
     mkSt w2 (trace st ++ [EvInvoke p; EvInvoke p])).
Proof.
  intros p H1 E1 H2 E2. subst p. unfold analysis_prompt in *.
  unfold _analyze_company_content. cbn [seq max_retries for_attempts].
  unfold bind, attempt_body, try_except, attempt_try, bind, invoke, lift,
    content_strip.
  rewrite H1. cbn [world trace]. rewrite E1. cbn -[PyStr.take].
  rewrite H2. cbn [world trace]. rewrite E2. cbn -[PyStr.take].
  rewrite (fallback_value company_name "" content), <- app_assoc.
  reflexivity.
Qed.

(** One execution of the research stage: it goes through
    [researched_names] once, with one single-result search for each name
    and at most two analysis calls for each. *)
Lemma research_step_once state st :
  exists cs st' d,
    _research_step state st = (inr cs, st')
    /\ trace st' = trace st ++ d
    /\ tool_searches d = length (researched_names state (world st))
    /\ (calls KAnalysis d <= 2 * length (researched_names state (world st)))%nat
    /\ calls KExtraction d = 0%nat
    /\ calls KRecommendation d = 0%nat.
Proof.
  unfold _research_step, research_tool_names, researched_names, bind, search.
  destruct (extracted_tools state) as [|t ts] eqn:Et.
  - destruct (search_companies (query state) 4 (world st)) as [hits w].
    cbn [fst]. unfold ret. set (titles := map _ hits). set (st1 := mkSt w _).
    destruct (runs_research_loop titles [] st1)
      as (r & st' & d & E & Ht & cs & -> & _ & T & A & X & R).
    exists cs, st', ([EvSearch (query state) 4] ++ d).
    split; [done|].
    split; [rewrite Ht; unfold st1; cbn [trace]; by rewrite <- app_assoc|].
    rewrite tool_searches_app, !calls_app, X, R, T. cbn. repeat split; lia.
  - unfold ret.
    destruct (runs_research_loop (firstn 4 (t :: ts)) [] st)
      as (r & st' & d & E & Ht & cs & -> & _ & T & A & X & R).
    exists cs, st', d. auto 10.
Qed.

(** C8: a call of [_analyze_company_content] returns after one or two
    model calls and nothing else; and no stage is retried: the outcome of
    a run, with its world and trace, is that of the analyze stage run once
    after the research stage run once after the extraction stage run once,
    so a run makes the extraction call once, the recommendation call once,
    one per-tool search for each researched name, and at most two analysis
    calls for each. *)
Theorem analyze_bounded_invocations :
  (forall company_name content st,
     exists r st' n,
       _analyze_company_content company_name content st = (inr r, st')
       /\ (1 <= n <= 2)%nat
       /\ trace st' =
            trace st ++ replicate n (EvInvoke (analysis_prompt company_name content))) /\
  (forall q st,
     exists tools st1 cs st2 d,
       _extract_tools_step (mkResearchState q [] [] None) st = (inr tools, st1)
       /\ _research_step (mkResearchState q tools [] None) st1 = (inr cs, st2)
       /\ run q st = run_from_analyze (mkResearchState q tools cs None) st2
       /\ trace (snd (run q st)) = trace st ++ d
       /\ calls KExtraction d = 1%nat
       /\ calls KRecommendation d = 1%nat
       /\ tool_searches d
          = length (researched_names (mkResearchState q tools [] None) (world st1))
       /\ (calls KAnalysis d <= 2 * tool_searches d)%nat).
Proof.
  split.
  - intros company_name content st.
    destruct (runs_analyze company_name content st)
      as (r & st' & d & E & Ht & oa & -> & _ & n & Hn & ->).
    exists oa, st', n. auto.
  - intros q st.
    destruct (runs_extract_tools_step (mkResearchState q [] [] None) st)
      as (r1 & st1 & d1 & E1 & T1 & tools & -> & X1 & A1 & R1 & S1).
    destruct (research_step_once (mkResearchState q tools [] None) st1)
      as (cs & st2 & d2 & E2 & T2 & S2 & A2 & X2 & R2).
    destruct (spec_run_from_analyze (mkResearchState q tools cs None) st2)
      as (r3 & st3 & d3 & E3 & T3 & X3 & A3 & R3 & S3).
    assert (run q st = run_from_analyze (mkResearchState q tools cs None) st2)
      as Hrun.
    { unfold run, bind. rewrite E1. unfold run_from_research, bind.
      cbn [query extracted_tools companies analysis]. by rewrite E2. }
    exists tools, st1, cs, st2, (d1 ++ d2 ++ d3).
    split; [done|]. split; [done|]. split; [done|].
    rewrite Hrun, E3. cbn [snd].
    split; [by rewrite T3, T2, T1, <- !app_assoc|].
    rewrite !calls_app, !tool_searches_app. lia.
Qed.

(** C9: when the model call of the extraction stage raises, the stage
    yields no candidates and the run goes on with the research stage; when
    the model call of the analyze stage raises, the stage raises and so
    does [run]. *)
Theorem transport_failure q st :
  let initial_state := mkResearchState q [] [] None in
  (forall all_content st1 e w,
     gather_articles initial_state st = (inr all_content, st1) ->
     llm (ToolExtraction q all_content) (world st1) = (LlmRaise e, w) ->
     let st2 := mkSt w (trace st1 ++ [EvInvoke (ToolExtraction q all_content)]) in
     _extract_tools_step initial_state st = (inr [], st2)
     /\ run q st = run_from_research initial_state st2) /\
  (forall state e w,
     let p := Recommendations (query state)
                (PyStr.join ", " (map company_json (companies state))) in
     llm p (world st) = (LlmRaise e, w) ->
     _analyze_step state st = (inl e, mkSt w (trace st ++ [EvInvoke p]))) /\
  (forall tools st1 cs st2 e w,
     let p := Recommendations q (PyStr.join ", " (map company_json cs)) in
     _extract_tools_step initial_state st = (inr tools, st1) ->
     _research_step (mkResearchState q tools [] None) st1 = (inr cs, st2) ->
     llm p (world st2) = (LlmRaise e, w) ->
     run q st = (inl e, mkSt w (trace st2 ++ [EvInvoke p]))).
Proof.
  intros initial_state. split; [|split].
  - intros all_content st1 e w Hg Hl st2.
    assert (_extract_tools_step initial_state st = (inr [], st2)) as He.
    { unfold _extract_tools_step, bind. rewrite Hg.
      unfold extract_from, try_except, bind, invoke. cbn [query initial_state].
      by rewrite Hl. }
    split; [done|]. unfold run, bind. fold initial_state. by rewrite He.
  - intros state e w p Hl. unfold _analyze_step, invoke. fold p. by rewrite Hl.
  - intros tools st1 cs st2 e w p He Hr Hl.
    unfold run, bind. fold initial_state. rewrite He.
    unfold run_from_research, bind. cbn [query extracted_tools companies analysis initial_state].
    rewrite Hr. unfold run_from_analyze, bind, _analyze_step, invoke.
    cbn [query extracted_tools companies analysis]. fold p. by rewrite Hl.
Qed.

(** ** More about the recovery engine *)

Local Opaque PyStr.strip PyStr.startswith PyStr.endswith PyStr.find PyStr.rfind
  PyStr.slice PyStr.take PyStr.is_empty PyStr.contains PyStr.lower.

(** One iteration, by what the model call contributes. *)
Lemma attempt_body_result company_name content attempt st :
  attempt_body company_name content attempt st =
  (inr (match attempt_result
                (fst (llm (analysis_prompt company_name content) (world st))) with
        | Some a => Return a
        | None =>
            if (attempt <? max_retries - 1)%nat then Continue
            else Return (fallback_record company_name content)
        end),
   after_invoke (analysis_prompt company_name content) st).
Proof.
  unfold attempt_body, try_except, attempt_try, after_invoke, analysis_prompt,
    invoke, bind, lift, ret, raise, content_strip, attempt_result,
    json_candidate, fallback_record.
  generalize (max_retries - 1)%nat; intros last.
  destruct (llm _ (world st)) as [o w]; cbn [fst snd].
  destruct o as [e|[]]; cbn [world trace];
  repeat (case_step; cbn [world trace negb andb]);
    first [reflexivity | congruence].
Qed.

Local Transparent PyStr.strip PyStr.startswith PyStr.endswith PyStr.find PyStr.rfind
  PyStr.slice PyStr.take PyStr.is_empty PyStr.contains PyStr.lower.

(** X5: the retry loop as a decision on two model calls.  The first call
    that contributes an analysis decides; a second call is made only when
    the first contributes none, with the same prompt; when neither does,
    the result is the fallback record. *)
Theorem analyze_characterisation company_name content st :
  let p := analysis_prompt company_name content in
  _analyze_company_content company_name content st =
  match attempt_result (fst (llm p (world st))) with
  | Some a => (inr (Some a), after_invoke p st)
  | None =>
      let st1 := after_invoke p st in
      match attempt_result (fst (llm p (world st1))) with
      | Some a => (inr (Some a), after_invoke p st1)
      | None =>
          (inr (Some (fallback_record company_name content)), after_invoke p st1)
      end
  end.
Proof.
  intros p. unfold _analyze_company_content.
  cbn [seq max_retries for_attempts]. unfold bind at 1.
  rewrite attempt_body_result. fold p.
  destruct (attempt_result (fst (llm p (world st)))) as [a|]; [done|].
  cbn [Nat.ltb Nat.leb Nat.sub max_retries]. cbv beta iota.
  unfold bind at 1. rewrite attempt_body_result. fold p.
  destruct (attempt_result (fst (llm p (world (after_invoke p st))))) as [a|];
    done.
Qed.

(** ** More about the repairs of the parsed dictionary *)

Lemma coerce_bool_id key data :
  (forall s, data !! key <> Some (PStr s)) -> coerce_bool key data = data.
Proof.
  intros H. unfold coerce_bool.
  destruct (data !! key) as [[]|] eqn:E; try done. by destruct (H s).
Qed.

Lemma ensure_list_id data field l :
  data !! field = Some (PList l) -> ensure_list data field = data.
Proof. intros H. unfold ensure_list. by rewrite H. Qed.

Lemma ensure_present_id key dflt data :
  is_Some (data !! key) -> ensure_present key dflt data = data.
Proof. intros [v H]. unfold ensure_present. by rewrite H. Qed.

Lemma coerce_bool_dom key data : dom (coerce_bool key data) = dom data.
Proof.
  unfold coerce_bool. destruct (data !! key) as [v|] eqn:E; [|done].
  destruct v; try done. repeat case_match; by apply dom_insert_lookup_L.
Qed.

Lemma ensure_list_dom data field :
  dom (ensure_list data field) = {[field]} ∪ dom data.
Proof.
  unfold ensure_list. destruct (data !! field) as [v|] eqn:E.
  - assert ({[field]} ∪ dom data = dom data) as ->.
    { apply subseteq_union_1_L, singleton_subseteq_l, elem_of_dom. eauto. }
    destruct (is_list v); [done|]. by apply dom_insert_lookup_L.
  - by rewrite dom_insert_L.
Qed.

Lemma ensure_present_dom key dflt data :
  dom (ensure_present key dflt data) = {[key]} ∪ dom data.
Proof.
  unfold ensure_present. destruct (data !! key) as [v|] eqn:E.
  - symmetry. apply subseteq_union_1_L, singleton_subseteq_l, elem_of_dom. eauto.
  - by rewrite dom_insert_L.
Qed.

Lemma coerce_bool_keeps k data key v :
  data !! key = Some v -> is_str v = false ->
  coerce_bool k data !! key = Some v.
Proof.
  intros H Hv. destruct (decide (k = key)) as [->|Hne].
  - rewrite coerce_bool_id; [done|]. intros s. rewrite H. by intros [= ->].
  - by rewrite coerce_bool_other.
Qed.

Lemma ensure_list_keeps data field key v :
  data !! key = Some v -> (key = field -> is_list v = true) ->
  ensure_list data field !! key = Some v.
Proof.
  intros H Hv. destruct (decide (field = key)) as [->|Hne].
  - unfold ensure_list. rewrite H, Hv; done.
  - by rewrite ensure_list_other.
Qed.

Lemma ensure_present_keeps k dflt data key v :
  data !! key = Some v -> ensure_present k dflt data !! key = Some v.
Proof.
  intros H. destruct (decide (k = key)) as [->|Hne].
  - by rewrite ensure_present_id.
  - by rewrite ensure_present_other.
Qed.

(** X6: repairing twice is repairing once, and the repairs add exactly
    the five keys that the constructor needs: the three lists, the pricing
    model and the description; a missing boolean stays missing. *)
Theorem normalise_idempotent data :
  normalise (normalise data) = normalise data
  /\ dom (normalise data) =
       dom data ∪ {["tech_stack"; "language_support"; "integration_capabilities";
                    "pricing_model"; "description"]}.
Proof.
  split.
  - destruct (normalise_shape data) as (Hl & Hb & Hp & Hd).
    set (N := normalise data) in *. unfold normalise at 1. cbn [fold_left].
    rewrite (coerce_bool_id "is_open_source") by (intros s; apply Hb; set_solver).
    rewrite (coerce_bool_id "api_available") by (intros s; apply Hb; set_solver).
    destruct (Hl "tech_stack" ltac:(set_solver)) as [l1 E1].
    destruct (Hl "language_support" ltac:(set_solver)) as [l2 E2].
    destruct (Hl "integration_capabilities" ltac:(set_solver)) as [l3 E3].
    rewrite (ensure_list_id _ _ _ E1), (ensure_list_id _ _ _ E2),
      (ensure_list_id _ _ _ E3).
    rewrite (ensure_present_id "pricing_model") by exact Hp.
    by rewrite (ensure_present_id "description") by exact Hd.
  - unfold normalise. cbn [fold_left].
    rewrite !ensure_present_dom, !ensure_list_dom, !coerce_bool_dom.
    apply set_eq. intros x. set_unfold. tauto.
Qed.

(** X7: the repairs never overwrite a usable value: an entry stays as it
    is unless it is a string under a boolean key or a value that is not a
    list under a list key. *)
Theorem normalise_keeps_valid data key v :
  data !! key = Some v ->
  (key ∈ ["is_open_source"; "api_available"] -> is_str v = false) ->
  (key ∈ ["tech_stack"; "language_support"; "integration_capabilities"] ->
   is_list v = true) ->
  normalise data !! key = Some v.
Proof.
  intros H Hb Hl. unfold normalise. cbn [fold_left].
  apply ensure_present_keeps, ensure_present_keeps.
  repeat (apply ensure_list_keeps; [|intros ->; apply Hl; set_solver]).
  destruct (decide (key ∈ ["is_open_source"; "api_available"])) as [Hin|Hnin].
  - by repeat apply coerce_bool_keeps; auto.
  - rewrite !coerce_bool_other by (intros <-; apply Hnin; set_solver). done.
Qed.

(** ** More about the stages *)

Lemma string_length_app (a b : string) :
  String.length (a +:+ b) = (String.length a + String.length b)%nat.
Proof.
  induction a as [|x a IH]; [done|].
  change (String x a +:+ b) with (String x (a +:+ b)). cbn [String.length].
  by rewrite IH.
Qed.

Lemma string_length_take n s : (String.length (PyStr.take n s) <= n)%nat.
Proof.
  revert s; induction n as [|n IH]; intros [|x s]; cbn; try lia.
  specialize (IH s). lia.
Qed.

Lemma runs_article_step_pages all_content result :
  runs (article_content_step all_content result)
    (fun content d =>
       Forall is_page_scrape d /\ (length d <= 1)%nat /\
       (String.length content <= String.length all_content + 1502)%nat).
Proof.
  unfold article_content_step.
  destruct (PyStr.endswith ".pdf" _) eqn:Hpdf.
  - eapply runs_weaken; [apply runs_ret|]. intros a d [-> ->].
    split; [constructor|]. cbn. lia.
  - eapply runs_weaken.
    + eapply runs_bind; [apply runs_scrape|].
      intros scraped.
      instantiate (1 := fun _ content d =>
        d = [] /\ (String.length content <= String.length all_content + 1502)%nat).
      destruct scraped as [markdown|];
        [destruct (negb _)|];
        (eapply runs_weaken; [apply runs_ret|]; intros a d [-> ->];
         split; [done|]); try lia.
      rewrite !string_length_app. pose proof (string_length_take 1500 markdown).
      cbn [blank_line String.length]. lia.
    + cbv beta. intros b d (a & d1 & d2 & -> & [-> Hlen] & ->).
      split; [|split; [cbn; lia|done]].
      constructor; [|constructor]. eexists; eauto.
Qed.

Lemma runs_article_loop_pages results : forall all_content,
  runs (foldM article_content_step results all_content)
    (fun content d =>
       Forall is_page_scrape d /\ (length d <= length results)%nat /\
       (String.length content
          <= String.length all_content + 1502 * length results)%nat).
Proof.
  induction results as [|result rest IH]; intros all_content; cbn [foldM].
  - eapply runs_weaken; [apply runs_ret|]. intros a d [-> ->].
    split; [constructor|]. cbn. lia.
  - eapply runs_weaken.
    + eapply runs_bind; [apply runs_article_step_pages|]. intros a. apply IH.
    + cbv beta.
      intros b d (a & d1 & d2 & (F1 & L1 & C1) & (F2 & L2 & C2) & ->).
      split; [by apply Forall_app|]. rewrite length_app. cbn [length]. lia.
Qed.

(** X8: gathering the articles makes one search, for three results, and
    then only scrapes; no page whose address ends in ".pdf" is scraped,
    there is at most one scrape for each search result, and the text
    handed to the model holds at most 1502 characters for each result. *)
Theorem gather_articles_pages state st :
  let article_query := query state +:+ " tools comparison best alternatives" in
  let hits := fst (search_companies article_query 3 (world st)) in
  exists all_content st' d,
    gather_articles state st = (inr all_content, st')
    /\ trace st' = trace st ++ EvSearch article_query 3 :: d
    /\ Forall is_page_scrape d
    /\ (length d <= length hits)%nat
    /\ (String.length all_content <= 1502 * length hits)%nat.
Proof.
  intros article_query hits. unfold gather_articles, bind, search.
  fold article_query. subst hits.
  destruct (search_companies article_query 3 (world st)) as [hits w] eqn:E.
  cbn [fst].
  destruct (runs_article_loop_pages hits ""
              (mkSt w (trace st ++ [EvSearch article_query 3])))
    as (r & st' & d & Er & Ht & content & -> & F & L & C).
  exists content, st', d. rewrite Er. split; [done|].
  split; [by rewrite Ht; cbn [trace]; rewrite <- app_assoc|].
  cbn [String.length] in C. auto.
Qed.

Lemma runs_research_tool_company companies tool_name :
  runs (research_tool companies tool_name)
    (fun cs _ =>
       cs = companies \/
       exists c, cs = companies ++ [c] /\ ci_name c = tool_name
                 /\ ci_competitors c = []
                 /\ analysis_ok (company_analysis c)).
Proof.
  intros st. unfold research_tool, bind, search.
  destruct (search_companies _ 1%nat (world st)) as [hits w1].
  destruct hits as [|result hits'].
  - eexists (inr companies), _, [official_site_search tool_name].
    split; [reflexivity|]. split; [done|]. exists companies. auto.
  - unfold scrape. cbn [world trace ci_name ci_website ci_competitors].
    destruct (scrape_company_pages _ w1) as [scraped w2].
    set (url := default "" (hit_url result)).
    set (content := default "" scraped).
    set (st2 := mkSt w2 _).
    destruct (runs_analyze tool_name content st2)
      as (r & st3 & d & E & Ht & oa & -> & (a & -> & Hok) & n & Hn & ->).
    rewrite E. cbv beta iota. unfold ret.
    eexists (inr _), st3,
      ([official_site_search tool_name; EvScrape url]
         ++ replicate n (EvInvoke (analysis_prompt tool_name content))).
    split; [reflexivity|].
    split; [rewrite Ht; unfold st2; cbn [trace]; by rewrite <- !app_assoc|].
    eexists; split; [reflexivity|]. right. eexists; split; [reflexivity|].
    cbn [ci_name ci_competitors]. split; [done|]. split; [done|].
    destruct a; exact Hok.
Qed.

Lemma runs_research_loop_companies tool_names : forall companies,
  runs (foldM research_tool tool_names companies)
    (fun cs _ =>
       exists new, cs = companies ++ new
                   /\ sublist (ci_name <$> new) tool_names
                   /\ Forall (fun c => analysis_ok (company_analysis c)) new).
Proof.
  induction tool_names as [|tool_name rest IH]; intros companies; cbn [foldM].
  - eapply runs_weaken; [apply runs_ret|]. intros a d [-> _].
    exists []. rewrite app_nil_r. split; [done|]. split; constructor.
  - eapply runs_weaken.
    + eapply runs_bind; [apply runs_research_tool_company|]. intros a. apply IH.
    + cbv beta. intros b d (a & d1 & d2 & H1 & (new & -> & Hs & Hf) & _).
      destruct H1 as [->|(c & -> & Hn & _ & Hok)].
      * exists new. split; [done|]. split; [by constructor|done].
      * exists (c :: new). rewrite <- app_assoc. split; [done|].
        cbn [fmap list_fmap]. rewrite Hn.
        split; [by constructor|by constructor].
Qed.

Lemma scrapes_replicate_invoke n p :
  List.filter is_scrape (replicate n (EvInvoke p)) = [].
Proof. induction n as [|n IH]; [done|]. exact IH. Qed.

(** One tool name, by what its search returns. *)
Lemma research_tool_outcome companies tool_name st :
  let q := tool_name +:+ " official site" in
  match fst (search_companies q 1 (world st)) with
  | [] =>
      research_tool companies tool_name st
      = (inr companies,
         mkSt (snd (search_companies q 1 (world st)))
           (trace st ++ [official_site_search tool_name]))
  | result :: _ =>
      let url := default "" (hit_url result) in
      exists content a st2 st3 n,
        trace st2 = trace st ++ [official_site_search tool_name; EvScrape url]
        /\ _analyze_company_content tool_name content st2 = (inr (Some a), st3)
        /\ trace st3 = trace st2 ++ replicate n (EvInvoke (analysis_prompt tool_name content))
        /\ research_tool companies tool_name st
           = (inr (companies ++ [tool_record tool_name url a]), st3)
  end.
Proof.
  intros q. unfold research_tool, bind, search. fold q.
  destruct (search_companies q 1 (world st)) as [hits w1]. cbn [fst snd].
  destruct hits as [|result hits']; [done|].
  unfold scrape. cbn [world trace ci_name ci_website ci_competitors].
  destruct (scrape_company_pages _ w1) as [scraped w2].
  set (url := default "" (hit_url result)).
  set (content := default "" scraped).
  set (st2 := mkSt w2 _).
  destruct (runs_analyze tool_name content st2)
    as (r & st3 & d & E & Ht & oa & -> & (a & -> & _) & n & _ & ->).
  exists content, a, st2, st3, n.
  split; [unfold st2; cbn [trace]; by rewrite <- app_assoc|].
  split; [done|]. split; [done|]. by rewrite E.
Qed.

Lemma runs_research_tool_record companies tool_name :
  runs (research_tool companies tool_name)
    (fun cs d =>
       (cs = companies /\ List.filter is_scrape d = [])
       \/ exists c, cs = companies ++ [c] /\ ci_name c = tool_name
                    /\ record_of_analysis c
                    /\ length (List.filter is_scrape d) = 1%nat).
Proof.
  intros st. pose proof (research_tool_outcome companies tool_name st) as H.
  cbv zeta in H.
  destruct (fst (search_companies (tool_name +:+ " official site") 1 (world st)))
    as [|result rest].
  - eexists _, _, [official_site_search tool_name]. split; [exact H|].
    split; [done|]. exists companies. split; [done|]. by left.
  - destruct H as (content & a & st2 & st3 & n & T2 & Ea & T3 & E).
    eexists _, st3, _. split; [exact E|].
    split; [by rewrite T3, T2, <- app_assoc|].
    eexists. split; [reflexivity|]. right. eexists. split; [reflexivity|].
    split; [done|]. split.
    + exists content, st2, st3. unfold tool_record, company_analysis.
      cbn [ci_name ci_pricing_model ci_is_open_source ci_tech_stack
           ci_description ci_api_available ci_language_support
           ci_integration_capabilities].
      rewrite Ea. by destruct a.
    + rewrite List.filter_app, scrapes_replicate_invoke. done.
Qed.

Lemma runs_research_loop_records tool_names : forall companies,
  runs (foldM research_tool tool_names companies)
    (fun cs d =>
       exists new, cs = companies ++ new
                   /\ sublist (ci_name <$> new) tool_names
                   /\ length new = length (List.filter is_scrape d)
                   /\ Forall record_of_analysis new).
Proof.
  induction tool_names as [|tool_name rest IH]; intros companies; cbn [foldM].
  - eapply runs_weaken; [apply runs_ret|]. intros a d [-> ->].
    exists []. rewrite app_nil_r. split; [done|]. split; [constructor|].
    split; [done|constructor].
  - eapply runs_weaken.
    + eapply runs_bind; [apply runs_research_tool_record|]. intros a. apply IH.
    + cbv beta. intros b d (a & d1 & d2 & H1 & (new & -> & Hs & Hl & Hf) & ->).
      rewrite List.filter_app, length_app.
      destruct H1 as [[-> ->]|(c & -> & Hn & Hr & H1)].
      * exists new. split; [done|]. split; [by constructor|]. split; [done|done].
      * exists (c :: new). rewrite <- app_assoc. split; [done|].
        cbn [fmap list_fmap length]. rewrite Hn, H1.
        split; [by constructor|]. split; [lia|by constructor].
Qed.

Lemma research_tool_names_run state st :
  exists st1 d0,
    research_tool_names state st = (inr (researched_names state (world st)), st1)
    /\ trace st1 = trace st ++ d0
    /\ List.filter is_scrape d0 = [].
Proof.
  unfold research_tool_names, researched_names, bind, search, ret.
  destruct (extracted_tools state) as [|t ts].
  - destruct (search_companies (query state) 4 (world st)) as [hits w].
    eexists _, [EvSearch (query state) 4]. done.
  - exists st, []. by rewrite app_nil_r.
Qed.

Section Stateless.

Variable found : string -> nat -> list search_hit.
Hypothesis search_found : forall q n w, fst (search_companies q n w) = found q n.

Lemma runs_research_tool_found companies tool_name :
  runs (research_tool companies tool_name)
    (fun cs _ =>
       if has_result found tool_name
       then exists c, cs = companies ++ [c] /\ ci_name c = tool_name
       else cs = companies).
Proof using search_found.
  intros st. pose proof (research_tool_outcome companies tool_name st) as H.
  cbv zeta in H. unfold has_result.
  rewrite search_found in H.
  destruct (found (tool_name +:+ " official site") 1%nat) as [|result rest].
  - eexists _, _, [official_site_search tool_name]. split; [exact H|].
    split; [done|]. by exists companies.
  - destruct H as (content & a & st2 & st3 & n & T2 & Ea & T3 & E).
    eexists _, st3, _. split; [exact E|].
    split; [by rewrite T3, T2, <- app_assoc|].
    eexists. split; [reflexivity|]. by eexists.
Qed.

Lemma runs_research_loop_found tool_names : forall companies,
  runs (foldM research_tool tool_names companies)
    (fun cs _ =>
       exists new, cs = companies ++ new
                   /\ ci_name <$> new = List.filter (has_result found) tool_names).
Proof using search_found.
  induction tool_names as [|tool_name rest IH]; intros companies; cbn [foldM].
  - eapply runs_weaken; [apply runs_ret|]. intros a d [-> _].
    exists []. by rewrite app_nil_r.
  - eapply runs_weaken.
    + eapply runs_bind; [apply runs_research_tool_found|]. intros a. apply IH.
    + cbv beta. intros b d (a & d1 & d2 & H1 & (new & -> & Hn) & _).
      cbn [List.filter]. destruct (has_result found tool_name).
      * destruct H1 as (c & -> & Hc). exists (c :: new).
        rewrite <- app_assoc. split; [done|]. cbn [fmap list_fmap]. by rewrite Hc, Hn.
      * subst a. by exists new.
Qed.

End Stateless.

(** X9: the research stage never raises; the names of its records are a
    subsequence, in order, of the names it researches, there is exactly
    one record for each page scraped, and the analysis attributes of a
    record are those of an analysis returned for its name.  A tool whose
    search returns nothing leaves no record: that call does nothing but
    the search, and for a provider whose results depend on the query
    alone the records are exactly those of the names whose search returns
    a result; a tool whose search returns something leaves one record
    with its name, the first result's URL and the analysis, after one
    scrape. *)
Theorem research_companies state st :
  let names := researched_names state (world st) in
  (exists cs st' d,
     _research_step state st = (inr cs, st')
     /\ trace st' = trace st ++ d
     /\ sublist (ci_name <$> cs) names
     /\ length cs = length (List.filter is_scrape d)
     /\ Forall record_of_analysis cs
     /\ (forall found,
           (forall q n w, fst (search_companies q n w) = found q n) ->
           ci_name <$> cs = List.filter (has_result found) names))
  /\ (forall companies tool_name st0,
        let q := tool_name +:+ " official site" in
        match fst (search_companies q 1 (world st0)) with
        | [] =>
            research_tool companies tool_name st0
            = (inr companies,
               mkSt (snd (search_companies q 1 (world st0)))
                 (trace st0 ++ [official_site_search tool_name]))
        | result :: _ =>
            let url := default "" (hit_url result) in
            exists content a st2 st3 n,
              trace st2
                = trace st0 ++ [official_site_search tool_name; EvScrape url]
              /\ _analyze_company_content tool_name content st2
                 = (inr (Some a), st3)
              /\ trace st3
                 = trace st2
                   ++ replicate n (EvInvoke (analysis_prompt tool_name content))
              /\ research_tool companies tool_name st0
                 = (inr (companies ++ [tool_record tool_name url a]), st3)
        end).
Proof.
  intros names. split; [|apply research_tool_outcome].
  unfold _research_step, bind.
  destruct (research_tool_names_run state st) as (st1 & d0 & E0 & T0 & S0).
  fold names in E0. rewrite E0.
  destruct (runs_research_loop_records names [] st1)
    as (r & st' & d & E & Ht & cs & -> & new & Hcs & Hs & Hl & Hf).
  cbn [app] in Hcs. subst new.
  exists cs, st', (d0 ++ d). split; [done|].
  split; [by rewrite Ht, T0, <- app_assoc|]. split; [done|].
  split; [by rewrite List.filter_app, S0|]. split; [done|].
  intros found Hfound.
  destruct (runs_research_loop_found found Hfound names [] st1)
    as (r2 & st2 & d2 & E2 & _ & cs2 & -> & new & Hcs2 & Hn).
  rewrite E in E2. injection E2 as <- <-. cbn [app] in Hcs2. by subst new.
Qed.

(** X10: with no candidate the research stage makes one direct search for
    the query, asking for four results, and then researches every result
    it is given under its title, or under "Unknown" when it has none. *)
Theorem research_direct_search state st :
  extracted_tools state = [] ->
  let hits := fst (search_companies (query state) 4 (world st)) in
  let titles := map (fun result => default "Unknown" (hit_title result)) hits in
  exists cs st' d,
    _research_step state st = (inr cs, st')
    /\ trace st' = trace st ++ EvSearch (query state) 4 :: d
    /\ searches d = map official_site_search titles
    /\ sublist (ci_name <$> cs) titles.
Proof.
  intros He hits titles. subst titles hits.
  unfold _research_step, research_tool_names, bind, search. rewrite He.
  destruct (search_companies (query state) 4 (world st)) as [hits w] eqn:Es.
  cbn [fst]. unfold ret.
  set (titles := map _ hits).
  set (st1 := mkSt w _).
  destruct (runs_research_loop titles [] st1)
    as (r & st' & d & E & Ht & cs & -> & Hsearch & _).
  destruct (runs_research_loop_companies titles [] st1)
    as (r2 & st2 & d2 & E2 & _ & cs2 & -> & new & Hcs & Hs & _).
  rewrite E in E2. injection E2 as <- <-.
  cbn [app] in Hcs. subst new.
  exists cs, st', d. split; [done|].
  split; [rewrite Ht; unfold st1; cbn [trace]; by rewrite <- app_assoc|].
  done.
Qed.

(** X11: a run raises only what the recommendation call raises.  The
    first two stages always hand over their candidates and companies;
    then the outcome is the exception of the last model call, or a state
    with the query, the candidates, the companies and the model's answer
    as it came. *)
Theorem run_outcome q st :
  exists tools st1 cs st2,
    _extract_tools_step (mkResearchState q [] [] None) st = (inr tools, st1)
    /\ _research_step (mkResearchState q tools [] None) st1 = (inr cs, st2)
    /\ let p := Recommendations q (PyStr.join ", " (map company_json cs)) in
       run q st =
       match llm p (world st2) with
       | (LlmRaise e, w) => (inl e, mkSt w (trace st2 ++ [EvInvoke p]))
       | (LlmResponse c, w) =>
           (inr (mkResearchState q tools cs (Some c)),
            mkSt w (trace st2 ++ [EvInvoke p]))
       end.
Proof.
  destruct (runs_extract_tools_step (mkResearchState q [] [] None) st)
    as (r1 & st1 & d1 & E1 & _ & tools & -> & _).
  destruct (runs_research_step (mkResearchState q tools [] None) st1)
    as (r2 & st2 & d2 & E2 & _ & cs & -> & _).
  exists tools, st1, cs, st2. split; [done|]. split; [done|].
  intros p. unfold run, bind. rewrite E1.
  unfold run_from_research, bind.
  cbn [query extracted_tools companies analysis]. rewrite E2.
  unfold run_from_analyze, _analyze_step, bind, invoke, ret.
  cbn [query extracted_tools companies analysis]. fold p.
  by destruct (llm p (world st2)) as [[e|c] w].
Qed.

Section NoResults.

Hypothesis no_hits : forall q n w, fst (search_companies q n w) = [].

Lemma search_no_hits q n st :
  search q n st =
  (inr [], mkSt (snd (search_companies q n (world st)))
             (trace st ++ [EvSearch q n])).
Proof using no_hits.
  unfold search. pose proof (no_hits q n (world st)) as H.
  destruct (search_companies q n (world st)) as [r w]. cbn in *. by subst.
Qed.

Lemma runs_research_tool_no_hits companies tool_name :
  runs (research_tool companies tool_name)
    (fun cs d => cs = companies /\ d = [official_site_search tool_name]).
Proof using no_hits.
  intros st. unfold research_tool, bind. rewrite search_no_hits.
  eexists _, _, _. split; [reflexivity|]. split; [reflexivity|].
  by exists companies.
Qed.

Lemma runs_research_loop_no_hits tool_names : forall companies,
  runs (foldM research_tool tool_names companies)
    (fun cs d => cs = companies /\ d = map official_site_search tool_names).
Proof using no_hits.
  induction tool_names as [|tool_name rest IH]; intros companies; cbn [foldM].
  - apply runs_ret.
  - eapply runs_weaken.
    + eapply runs_bind; [apply runs_research_tool_no_hits|]. intros a. apply IH.
    + cbv beta. intros b d (a & d1 & d2 & [-> ->] & [-> ->] & ->). done.
Qed.

Lemma runs_research_step_no_hits state :
  runs (_research_step state)
    (fun cs d => cs = [] /\ Forall (fun e => is_search e = true) d).
Proof using no_hits.
  unfold _research_step. eapply runs_weaken.
  - eapply runs_bind; [apply runs_research_tool_names|].
    intros names. apply runs_research_loop_no_hits.
  - cbv beta. intros b d (names & d1 & d2 & H1 & [-> ->] & ->).
    split; [done|]. apply Forall_app. split.
    + destruct (extracted_tools state); [subst d1|destruct H1 as [_ ->]];
        repeat constructor.
    + apply Forall_forall. intros e He.
      apply list_elem_of_fmap in He as (n & -> & _). done.
Qed.

Lemma gather_articles_no_hits state st :
  let article_query := query state +:+ " tools comparison best alternatives" in
  gather_articles state st =
  (inr "", mkSt (snd (search_companies article_query 3 (world st)))
             (trace st ++ [EvSearch article_query 3])).
Proof using no_hits.
  intros article_query. unfold gather_articles, bind. fold article_query.
  by rewrite search_no_hits.
Qed.

(** X12: when every search comes back empty a run still goes through all
    three stages: nothing is scraped, no analysis is asked for, the model
    is called twice, for candidates from an empty text and for a
    recommendation over no company, and a result has no company. *)
Theorem run_without_search_results q st :
  exists r st' d,
    run q st = (r, st')
    /\ trace st' = trace st ++ d
    /\ invocations d =
         [EvInvoke (ToolExtraction q ""); EvInvoke (Recommendations q "")]
    /\ List.filter is_scrape d = []
    /\ match r with
       | inr final => query final = q /\ companies final = []
       | inl _ => True
       end.
Proof using no_hits.
  unfold run, bind, _extract_tools_step, bind.
  rewrite gather_articles_no_hits. cbn [query].
  set (aq := q +:+ " tools comparison best alternatives").
  set (st1 := mkSt _ _).
  destruct (runs_extract_from (mkResearchState q [] [] None) "" st1)
    as (r1 & st2 & d1 & E1 & T1 & tools & -> & ->).
  rewrite E1. unfold run_from_research, bind.
  cbn [query extracted_tools companies analysis].
  destruct (runs_research_step_no_hits (mkResearchState q tools [] None) st2)
    as (r2 & st3 & d2 & E2 & T2 & cs & -> & -> & Hs).
  rewrite E2. unfold run_from_analyze, _analyze_step, bind, invoke, ret.
  cbn [query extracted_tools companies analysis map PyStr.join].
  assert (invocations d2 = [] /\ List.filter is_scrape d2 = []) as [I2 S2].
  { clear -Hs. induction Hs as [|e d He _ [IH1 IH2]]; [done|].
    destruct e; try discriminate. cbn. auto. }
  destruct (llm (Recommendations q "") (world st3)) as [[e|c] w];
    eexists _, _, ([EvSearch aq 3] ++ [EvInvoke (ToolExtraction q "")] ++ d2
                     ++ [EvInvoke (Recommendations q "")]);
    (split; [reflexivity|]);
    (split; [cbn [trace]; rewrite T2, T1; unfold st1; cbn [trace];
             by rewrite <- !app_assoc|]);
    unfold invocations in *;
    rewrite !List.filter_app, I2, S2; done.
Qed.

End NoResults.

(** ** The cost of a run *)

Lemma invocations_calls d :
  length (invocations d)
  = (calls KExtraction d + calls KAnalysis d + calls KRecommendation d)%nat.
Proof.
  unfold invocations, calls. induction d as [|e d IH]; [done|].
  destruct e as [| |[]]; cbn [List.filter is_invoke is_call length]; lia.
Qed.

Lemma research_step_budget state st :
  let bound :=
    match extracted_tools state with
    | [] => length (fst (search_companies (query state) 4 (world st)))
    | _ => 4%nat
    end in
  exists cs st' d,
    _research_step state st = (inr cs, st')
    /\ trace st' = trace st ++ d
    /\ (calls KAnalysis d <= 2 * bound)%nat
    /\ calls KExtraction d = 0%nat
    /\ calls KRecommendation d = 0%nat.
Proof.
  intros bound. subst bound.
  unfold _research_step, research_tool_names, bind, search.
  destruct (extracted_tools state) as [|t ts] eqn:Et.
  - destruct (search_companies (query state) 4 (world st)) as [hits w].
    cbn [fst]. unfold ret. set (titles := map _ hits). set (st1 := mkSt w _).
    destruct (runs_research_loop titles [] st1)
      as (r & st' & d & E & Ht & cs & -> & _ & _ & A & X & R).
    exists cs, st', ([EvSearch (query state) 4] ++ d).
    split; [done|].
    split; [rewrite Ht; unfold st1; cbn [trace]; by rewrite <- app_assoc|].
    rewrite !calls_app, X, R. unfold titles in A. rewrite length_map in A.
    cbn. repeat split; lia.
  - unfold ret.
    destruct (runs_research_loop (firstn 4 (t :: ts)) [] st)
      as (r & st' & d & E & Ht & cs & -> & _ & _ & A & X & R).
    exists cs, st', d. split; [done|]. split; [done|].
    rewrite length_take in A. repeat split; lia.
Qed.

(** X19: what a run costs in model calls: one for the candidates, one for
    the recommendation, and at most two for each tool researched; with
    candidates at most four tools are researched, so at most ten calls,
    and without candidates as many tools as the direct search returns. *)
Theorem run_model_call_budget q st :
  exists tools st1 r st' d,
    _extract_tools_step (mkResearchState q [] [] None) st = (inr tools, st1)
    /\ run q st = (r, st')
    /\ trace st' = trace st ++ d
    /\ (length (invocations d)
        <= 2 + 2 * match tools with
                   | [] => length (fst (search_companies q 4 (world st1)))
                   | _ => 4
                   end)%nat.
Proof.
  destruct (runs_extract_tools_step (mkResearchState q [] [] None) st)
    as (r1 & st1 & d1 & E1 & T1 & tools & -> & X1 & A1 & R1 & _).
  destruct (research_step_budget (mkResearchState q tools [] None) st1)
    as (cs & st2 & d2 & E2 & T2 & A2 & X2 & R2).
  cbn [extracted_tools query] in A2.
  unfold run, bind. rewrite E1. unfold run_from_research, bind.
  cbn [query extracted_tools companies analysis]. rewrite E2.
  unfold run_from_analyze, _analyze_step, bind, invoke, ret.
  cbn [query extracted_tools companies analysis].
  set (p := Recommendations q _).
  exists tools, st1.
  destruct (llm p (world st2)) as [[e|c] w];
    eexists _, _, (d1 ++ d2 ++ [EvInvoke p]);
    (split; [done|]); (split; [reflexivity|]);
    (split; [cbn [trace]; by rewrite T2, T1, <- !app_assoc|]);
    rewrite invocations_calls, !calls_app, X1, A1, R1, X2, R2;
    cbn [calls List.filter is_call length p]; lia.
Qed.

(** X20: what the repairs put in place of an unusable value: a string
    under a boolean key becomes [True] or [False] when it spells "true" or
    "false" in any letter case and [None] otherwise; a value that is not a
    list under a list key, and a missing list key, become the empty
    list. *)
Theorem normalise_repairs data key :
  (key ∈ ["is_open_source"; "api_available"] ->
   forall s, data !! key = Some (PStr s) ->
     normalise data !! key
     = Some (if String.eqb (PyStr.lower s) "true" then PBool true
             else if String.eqb (PyStr.lower s) "false" then PBool false
             else PNone)) /\
  (key ∈ ["tech_stack"; "language_support"; "integration_capabilities"] ->
   match data !! key with
   | Some (PList l) => normalise data !! key = Some (PList l)
   | _ => normalise data !! key = Some (PList [])
   end).
Proof.
  split.
  - intros Hk s Hs. unfold normalise. cbn [fold_left].
    assert (forall k d, d !! k = Some (PStr s) ->
              coerce_bool k d !! k
              = Some (if String.eqb (PyStr.lower s) "true" then PBool true
                      else if String.eqb (PyStr.lower s) "false" then PBool false
                      else PNone)) as Hc.
    { intros k d Hd. unfold coerce_bool. rewrite Hd.
      repeat case_match; by simplify_map_eq. }
    apply elem_of_cons in Hk as [->|Hk];
      [|apply list_elem_of_singleton in Hk as ->];
      rewrite !ensure_present_other by done;
      rewrite !ensure_list_other by done.
    + rewrite coerce_bool_other by done. by apply Hc.
    + apply Hc. by rewrite coerce_bool_other.
  - intros Hk.
    pose proof (coerce_bool_other "api_available"
                  (coerce_bool "is_open_source" data) key) as H1.
    pose proof (coerce_bool_other "is_open_source" data key) as H2.
    assert (coerce_bool "api_available" (coerce_bool "is_open_source" data) !! key
            = data !! key) as Hd.
    { rewrite H1, H2; [done| |]; intros <-;
        repeat (apply elem_of_cons in Hk as [Hk|Hk]; [discriminate|]);
        by apply elem_of_nil in Hk. }
    unfold normalise. cbn [fold_left].
    set (d0 := coerce_bool "api_available" (coerce_bool "is_open_source" data)) in *.
    assert (forall d, ensure_list d key !! key
                      = match d !! key with
                        | Some (PList l) => Some (PList l)
                        | _ => Some (PList [])
                        end) as Hself.
    { intros d. unfold ensure_list.
      destruct (d !! key) as [[]|] eqn:E; cbn [is_list]; by simplify_map_eq. }
    apply elem_of_cons in Hk as [->|Hk];
      [|apply elem_of_cons in Hk as [->|Hk];
        [|apply list_elem_of_singleton in Hk as ->]];
      rewrite !ensure_present_other by done.
    + rewrite !ensure_list_other by done. rewrite Hself, Hd.
      by destruct (data !! "tech_stack") as [[]|].
    + rewrite ensure_list_other by done. rewrite Hself.
      rewrite ensure_list_other by done. rewrite Hd.
      by destruct (data !! "language_support") as [[]|].
    + rewrite Hself. rewrite !ensure_list_other by done. rewrite Hd.
      by destruct (data !! "integration_capabilities") as [[]|].
Qed.

End Pipeline.

(** ** The model on concrete inputs *)

Module Examples.

Local Abbreviation nl := (String newline EmptyString).

Example strip_both_ends : PyStr.strip ("  a b " +:+ nl) = "a b".
Proof. reflexivity. Qed.

Example split_keeps_empty_lines :
  PyStr.split newline ("a" +:+ nl +:+ nl +:+ "b") = ["a"; ""; "b"]
  /\ PyStr.split newline "" = [""].
Proof. split; reflexivity. Qed.

Example split_ws_runs :
  PyStr.split_ws "  Railway CLI   deploy " = ["Railway"; "CLI"; "deploy"].
Proof. reflexivity. Qed.

Example find_and_rfind :
  PyStr.find "{" "ab{c}" = 2 /\ PyStr.rfind "}" "ab{c}}x" = 5
  /\ PyStr.find "{" "abc" = -1 /\ PyStr.rfind "}" "" = -1.
Proof. repeat split; reflexivity. Qed.

Example slice_inclusive_braces :
  PyStr.slice 2 (5 + 1) "ab{cd}ef" = "{cd}" /\ PyStr.slice 5 3 "ab{cd}ef" = "".
Proof. split; reflexivity. Qed.

Example fences_are_stripped :
  strip_fences ("```json" +:+ nl +:+ "{}" +:+ nl +:+ "```") = "{}".
Proof. reflexivity. Qed.

Example lower_is_ascii : PyStr.lower "Here ARE [Z]" = "here are [z]".
Proof. reflexivity. Qed.

Example free_tier_is_free :
  fallback_pricing "Freemium: a free tier, then $20 per month" = "Free"
  /\ fallback_pricing "Contact sales" = "Enterprise"
  /\ fallback_pricing "From $20 per month" = "Paid"
  /\ fallback_pricing "A database" = "Unknown".
Proof. repeat split; reflexivity. Qed.

(** A parsed empty object gets the defaults of lines 161-171. *)
Example empty_object_defaults :
  parse_and_build Demo.json_loads "{}" =
  inr (mkCompanyAnalysis (PStr "Unknown") PNone (PList [])
         (PStr "No description available") PNone (PList []) (PList [])).
Proof. vm_compute. reflexivity. Qed.

(** A pricing value outside the five is refused by the constructor. *)
Example unknown_pricing_refused :
  Models.CompanyAnalysis_new (normalise {["pricing_model" := PStr "Cheap"]})
  = inl ValidationError.
Proof. vm_compute. reflexivity. Qed.

(** String booleans become booleans, anything else unset. *)
Example string_booleans :
  coerce_bool "is_open_source" {["is_open_source" := PStr "TRUE"]} !! "is_open_source"
    = Some (PBool true)
  /\ coerce_bool "api_available" {["api_available" := PStr "maybe"]} !! "api_available"
    = Some PNone.
Proof. split; vm_compute; reflexivity. Qed.

(** A whole run: one candidate survives the classifier, its analysis is a
    fenced empty object, and the recommendation is kept as it comes. *)
Example run_once :
  let st :=
    mkSt Demo.World
      [LlmResponse (PStr ("Here are the tools:" +:+ nl +:+ "Supabase" +:+ nl +:+ "2. Neon"));
       LlmResponse (PStr ("```json" +:+ nl +:+ "{}" +:+ nl +:+ "```"));
       LlmResponse (PStr "Use Supabase.")] [] in
  let r := run Demo.World Demo.llm Demo.search_companies Demo.scrape_company_pages
             Demo.json_loads Demo.company_json "db" st in
  (exists final, fst r = inr final
                 /\ extracted_tools final = ["Supabase"]
                 /\ length (companies final) = 1%nat
                 /\ analysis final = Some (PStr "Use Supabase."))
  /\ searches (trace Demo.World (snd r)) =
       [EvSearch "db tools comparison best alternatives" 3;
        EvSearch "Supabase official site" 1]
  /\ length (invocations (trace Demo.World (snd r))) = 3%nat.
Proof. vm_compute. split; [eexists; split; [reflexivity|]|]; repeat split. Qed.

End Examples.

(** ** Facts about the string primitives *)

Module StrFacts.

Lemma rstrip_idem s : PyStr.rstrip (PyStr.rstrip s) = PyStr.rstrip s.
Proof.
  induction s as [|c s IH]; simpl; [done|].
  destruct (PyStr.rstrip s) as [|d r] eqn:E.
  - destruct (PyStr.isspace c) eqn:Hc; simpl; [done|]. by rewrite Hc.
  - change (PyStr.rstrip (String c (String d r)))
      with (match PyStr.rstrip (String d r) with
            | EmptyString => if PyStr.isspace c then EmptyString else String c EmptyString
            | r0 => String c r0 end).
    by rewrite IH.
Qed.

Lemma lstrip_head s :
  match PyStr.lstrip s with
  | EmptyString => True
  | String c _ => PyStr.isspace c = false
  end.
Proof.
  induction s as [|c s IH]; simpl; [done|].
  destruct (PyStr.isspace c) eqn:Hc; [done|]. by rewrite Hc.
Qed.

Lemma rstrip_head c s :
  PyStr.isspace c = false -> exists r, PyStr.rstrip (String c s) = String c r.
Proof.
  intros Hc. simpl. destruct (PyStr.rstrip s); [rewrite Hc|]; eauto.
Qed.

Lemma strip_head s :
  match PyStr.strip s with
  | EmptyString => True
  | String c _ => PyStr.isspace c = false
  end.
Proof.
  unfold PyStr.strip. pose proof (lstrip_head s) as H.
  destruct (PyStr.lstrip s) as [|c r]; [done|].
  destruct (rstrip_head c r H) as [r' ->]. done.
Qed.

Lemma lstrip_strip s : PyStr.lstrip (PyStr.strip s) = PyStr.strip s.
Proof.
  pose proof (strip_head s) as H.
  destruct (PyStr.strip s) as [|c r]; [done|]. simpl. by rewrite H.
Qed.

Lemma strip_idem s : PyStr.strip (PyStr.strip s) = PyStr.strip s.
Proof.
  unfold PyStr.strip at 1. rewrite lstrip_strip.
  unfold PyStr.strip. apply rstrip_idem.
Qed.

(** [contains] decides occurrence as a contiguous substring. *)
Lemma startswith_spec p s :
  PyStr.startswith p s = true <-> exists post, s = p +:+ post.
Proof.
  revert s; induction p as [|a p IH]; intros s; simpl.
  - split; eauto.
  - destruct s as [|b s].
    + split; [done|]. intros [post H]. discriminate.
    + rewrite andb_true_iff, IH. split.
      * intros [Hab [post ->]]. apply Ascii.eqb_eq in Hab as ->. eauto.
      * intros [post H]. injection H as -> ->. split; [apply Ascii.eqb_refl|eauto].
Qed.

Lemma contains_spec sub s :
  PyStr.contains sub s = true <-> exists pre post, s = pre +:+ sub +:+ post.
Proof.
  induction s as [|c s IH]; simpl.
  - rewrite orb_false_r, startswith_spec. split.
    + intros [post H]. by exists EmptyString, post.
    + intros [pre [post H]]. destruct pre; [eauto|discriminate].
  - rewrite orb_true_iff, startswith_spec, IH. split.
    + intros [[post H]|[pre [post H]]].
      * by exists EmptyString, post.
      * exists (String c pre), post. simpl. by rewrite H.
    + intros [pre [post H]]. destruct pre as [|d pre].
      * left. eauto.
      * right. injection H as -> ->. eauto.
Qed.

Lemma append_assoc (a b c : string) : (a +:+ b) +:+ c = a +:+ b +:+ c.
Proof.
  induction a as [|x a IH]; [done|].
  change (String x ((a +:+ b) +:+ c) = String x (a +:+ b +:+ c)).
  by rewrite IH.
Qed.

(** A string that contains [a +:+ b] contains [a]. *)
Lemma contains_prefix a b s :
  PyStr.contains (a +:+ b) s = true -> PyStr.contains a s = true.
Proof.
  rewrite !contains_spec. intros (pre & post & ->).
  exists pre, (b +:+ post). by rewrite append_assoc.
Qed.

(** Splitting, joining and stripping lines. *)

Lemma append_cons c (a b : string) : String c a +:+ b = String c (a +:+ b).
Proof. reflexivity. Qed.

Lemma contains_char_nil c : PyStr.contains (String c EmptyString) EmptyString = false.
Proof. reflexivity. Qed.

Lemma contains_char_cons c x s :
  PyStr.contains (String c EmptyString) (String x s)
  = Ascii.eqb c x || PyStr.contains (String c EmptyString) s.
Proof. simpl. by rewrite andb_true_r. Qed.

Lemma split_parts_free sep s :
  Forall (fun l => PyStr.contains (String sep EmptyString) l = false)
    (PyStr.split sep s).
Proof.
  induction s as [|x s IH]; cbn [PyStr.split].
  - by constructor.
  - destruct (Ascii.eqb x sep) eqn:E; [by constructor|].
    destruct (PyStr.split sep s) as [|h t].
    { constructor; [|done]. by rewrite contains_char_cons, Ascii.eqb_sym, E. }
    inversion IH as [|? ? Hh Ht]; subst. constructor; [|done].
    rewrite contains_char_cons, Hh, Ascii.eqb_sym, E. done.
Qed.

Lemma lstrip_free c s :
  PyStr.contains (String c EmptyString) s = false ->
  PyStr.contains (String c EmptyString) (PyStr.lstrip s) = false.
Proof.
  induction s as [|x s IH]; [done|]. intros H.
  cbn [PyStr.lstrip]. destruct (PyStr.isspace x); [|done].
  rewrite contains_char_cons in H. apply orb_false_iff in H as [_ H]. auto.
Qed.

Lemma rstrip_free c s :
  PyStr.contains (String c EmptyString) s = false ->
  PyStr.contains (String c EmptyString) (PyStr.rstrip s) = false.
Proof.
  induction s as [|x s IH]; [done|]. intros H.
  rewrite contains_char_cons in H. apply orb_false_iff in H as [Hx H].
  specialize (IH H). cbn [PyStr.rstrip].
  destruct (PyStr.rstrip s) as [|y r].
  - destruct (PyStr.isspace x); [done|].
    by rewrite contains_char_cons, Hx.
  - by rewrite contains_char_cons, Hx, IH.
Qed.

Lemma strip_free c s :
  PyStr.contains (String c EmptyString) s = false ->
  PyStr.contains (String c EmptyString) (PyStr.strip s) = false.
Proof. intros H. by apply rstrip_free, lstrip_free. Qed.

Lemma split_free sep s :
  PyStr.contains (String sep EmptyString) s = false -> PyStr.split sep s = [s].
Proof.
  induction s as [|x s IH]; [done|]. intros H.
  rewrite contains_char_cons in H. apply orb_false_iff in H as [Hx H].
  cbn [PyStr.split]. rewrite Ascii.eqb_sym, Hx, (IH H). done.
Qed.

Lemma split_app sep s rest :
  PyStr.contains (String sep EmptyString) s = false ->
  PyStr.split sep (s +:+ String sep rest) = s :: PyStr.split sep rest.
Proof.
  induction s as [|x s IH]; intros H.
  - change (EmptyString +:+ String sep rest) with (String sep rest).
    cbn [PyStr.split]. by rewrite Ascii.eqb_refl.
  - rewrite contains_char_cons in H. apply orb_false_iff in H as [Hx H].
    rewrite append_cons. cbn [PyStr.split].
    rewrite Ascii.eqb_sym, Hx, (IH H). done.
Qed.

Lemma split_join sep l :
  l <> [] ->
  Forall (fun x => PyStr.contains (String sep EmptyString) x = false) l ->
  PyStr.split sep (PyStr.join (String sep EmptyString) l) = l.
Proof.
  induction l as [|x [|y t] IH]; [done| |]; intros _ Hl.
  - apply split_free. by inversion Hl.
  - inversion Hl as [|? ? Hx Hr]; subst.
    change (PyStr.join (String sep EmptyString) (x :: y :: t))
      with (x +:+ String sep EmptyString +:+ PyStr.join (String sep EmptyString) (y :: t)).
    change (String sep EmptyString +:+ ?r) with (String sep r).
    rewrite split_app by done. by rewrite IH.
Qed.

Lemma rstrip_app a b :
  b <> EmptyString -> PyStr.rstrip b = b -> PyStr.rstrip (a +:+ b) = a +:+ b.
Proof.
  intros Hb Hr. induction a as [|x a IH]; [done|].
  rewrite append_cons. cbn [PyStr.rstrip]. rewrite IH.
  destruct (a +:+ b) eqn:E; [|done].
  destruct a; [by subst|discriminate].
Qed.

Lemma strip_fixed_parts s :
  PyStr.strip s = s -> PyStr.lstrip s = s /\ PyStr.rstrip s = s.
Proof.
  intros H. split.
  - rewrite <- H. apply lstrip_strip.
  - rewrite <- H at 1. unfold PyStr.strip. rewrite rstrip_idem. exact H.
Qed.

Lemma lstrip_app a b :
  a <> EmptyString -> PyStr.lstrip a = a -> PyStr.lstrip (a +:+ b) = a +:+ b.
Proof.
  intros Ha Hl. destruct a as [|x a]; [done|].
  pose proof (lstrip_head (String x a)) as Hh. rewrite Hl in Hh.
  rewrite append_cons. cbn [PyStr.lstrip]. by rewrite Hh.
Qed.

Lemma join_fixed sep l :
  l <> [] ->
  Forall (fun x => PyStr.strip x = x /\ x <> EmptyString) l ->
  let j := PyStr.join sep l in
  j <> EmptyString /\ PyStr.lstrip j = j /\ PyStr.rstrip j = j.
Proof.
  induction l as [|x [|y t] IH]; [done| |]; intros _ Hl.
  - inversion Hl as [|? ? [Hx Hne] _]; subst. cbn.
    destruct (strip_fixed_parts x Hx). done.
  - inversion Hl as [|? ? [Hx Hne] Hr]; subst.
    destruct (IH ltac:(done) Hr) as (Jne & Jl & Jr).
    destruct (strip_fixed_parts x Hx) as [Hxl Hxr].
    change (PyStr.join sep (x :: y :: t))
      with (x +:+ sep +:+ PyStr.join sep (y :: t)).
    cbv zeta. split; [|split].
    + destruct x; [done|discriminate].
    + by apply lstrip_app.
    + rewrite <- append_assoc. by apply rstrip_app.
Qed.

Lemma strip_join sep l :
  l <> [] ->
  Forall (fun x => PyStr.strip x = x /\ x <> EmptyString) l ->
  PyStr.strip (PyStr.join sep l) = PyStr.join sep l.
Proof.
  intros Hne Hl. destruct (join_fixed sep l Hne Hl) as (_ & Hl' & Hr').
  unfold PyStr.strip. by rewrite Hl', Hr'.
Qed.

End StrFacts.

(** ** Facts about the classifier *)

Module ClassifierFacts.
Import Classifier.

Lemma classify_step_keeps acc raw :
  classify_step acc raw =
  if keeps (PyStr.strip raw) then acc ++ [PyStr.strip raw] else acc.
Proof.
  unfold classify_step, keeps.
  destruct (PyStr.is_empty _), (preamble_rule _), (numbered_list_rule _),
    (stop_word_rule _), (word_count_rule _); reflexivity.
Qed.

Lemma fold_classify_step ls acc :
  fold_left classify_step ls acc = acc ++ List.filter keeps (map PyStr.strip ls).
Proof.
  revert acc; induction ls as [|l ls IH]; intros acc; simpl.
  - by rewrite app_nil_r.
  - rewrite IH, classify_step_keeps.
    destruct (keeps (PyStr.strip l)); [|done]. by rewrite <- app_assoc.
Qed.

Lemma classify_lines_filter ls :
  classify_lines ls = List.filter keeps (map PyStr.strip ls).
Proof. unfold classify_lines. by rewrite fold_classify_step. Qed.

Lemma classify_lines_fixed ls :
  Forall (fun l => PyStr.strip l = l /\ keeps l = true) ls ->
  classify_lines ls = ls.
Proof.
  rewrite classify_lines_filter.
  induction 1 as [|l ls [Hs Hk] _ IH]; simpl; [done|].
  rewrite Hs, Hk. by rewrite IH.
Qed.

Lemma classify_lines_output ls :
  Forall (fun l => PyStr.strip l = l /\ keeps l = true) (classify_lines ls).
Proof.
  rewrite classify_lines_filter.
  induction ls as [|l ls IH]; simpl; [constructor|].
  destruct (keeps (PyStr.strip l)) eqn:Hk; [|done].
  constructor; [|done]. split; [apply StrFacts.strip_idem|done].
Qed.

(** The lines the classifier yields from a text, joined one per line,
    are read back as the same lines. *)

Lemma keeps_nonempty l : keeps l = true -> l <> EmptyString.
Proof. by intros H ->. Qed.

Lemma classify_output content :
  Forall (fun l => (PyStr.strip l = l /\ l <> EmptyString)
                   /\ PyStr.contains (String newline EmptyString) l = false)
    (classify content).
Proof.
  unfold classify. rewrite classify_lines_filter.
  pose proof (StrFacts.split_parts_free newline (PyStr.strip content)) as H.
  induction H as [|x l Hx Hl IH]; cbn [map List.filter]; [constructor|].
  destruct (keeps (PyStr.strip x)) eqn:Hk; [|done].
  constructor; [|done]. split; [split|].
  - apply StrFacts.strip_idem.
  - by apply keeps_nonempty.
  - by apply StrFacts.strip_free.
Qed.

Lemma classify_text_fixed content :
  classify (PyStr.join (String newline EmptyString) (classify content))
  = classify content.
Proof.
  pose proof (classify_output content) as H.
  destruct (classify content) as [|x t] eqn:E; [by vm_compute|].
  rewrite <- E in *. assert (classify content <> []) as Hne by (by rewrite E).
  unfold classify at 1.
  rewrite StrFacts.strip_join by (done || by eapply Forall_impl; [exact H|]; intros ? [? _]).
  rewrite StrFacts.split_join by (done || by eapply Forall_impl; [exact H|]; intros ? [_ ?]).
  unfold classify.
  apply classify_lines_fixed, classify_lines_output.
Qed.

End ClassifierFacts.

(** ** The claims about the classifier *)

(** C3, as the code has it: the numbered-list rule discards a line
    exactly when its first character is a digit and "." occurs anywhere
    in the line; a line that begins with a digit immediately followed by
    "." is one of these. *)
Theorem numbered_list_rule_spec line :
  (Classifier.numbered_list_rule line = true <->
     (exists c rest, line = String c rest /\ PyStr.isdigit c = true) /\
     (exists pre post, line = pre +:+ "." +:+ post)) /\
  implb (Classifier.digit_then_dot line) (Classifier.numbered_list_rule line) = true.
Proof.
  split.
  - unfold Classifier.numbered_list_rule. destruct line as [|c rest].
    + split; [done|]. by intros [(c & rest & H & _) _].
    + rewrite andb_true_iff, StrFacts.contains_spec. split.
      * intros [Hd Hc]. split; [eauto|done].
      * intros [(c' & rest' & [= -> ->] & Hd) Hc]. done.
  - destruct line as [|c [|d rest]]; [done|done|].
    unfold Classifier.digit_then_dot, Classifier.numbered_list_rule.
    destruct (PyStr.isdigit c); [|done].
    destruct (Ascii.eqb d ".") eqn:Hd; [|done].
    apply Ascii.eqb_eq in Hd as ->. cbn [andb implb].
    apply StrFacts.contains_spec. by exists (String c EmptyString), rest.
Qed.

(** C3, as the spec words it, fails: "10. Supabase" is trimmed, begins
    with a digit that is not immediately followed by ".", and the rule
    discards it. *)
Lemma numbered_list_rule_counterexample :
  ~ (forall line,
       line <> EmptyString -> PyStr.strip line = line ->
       (Classifier.numbered_list_rule line = true <->
        Classifier.digit_then_dot line = true)).
Proof.
  intros H.
  destruct (H "10. Supabase" ltac:(discriminate) eq_refl) as [H1 _].
  specialize (H1 eq_refl). discriminate H1.
Qed.

(** C4: on the five lines of the example the classifier yields
    ["PlanetScale"] alone, from the list of lines and from the text
    that holds them one per line; the other four are refused by the
    preamble, numbering, stop-word and word-count rules. *)
Theorem classifier_example :
  let lines :=
    ["Here are the tools:"; "1. Supabase"; "PlanetScale";
     "This summary mentions many tools";
     "Railway CLI deploy assistant extra words here too"] in
  Classifier.classify_lines lines = ["PlanetScale"] /\
  Classifier.classify (PyStr.join (String newline EmptyString) lines)
    = ["PlanetScale"] /\
  Classifier.preamble_rule "Here are the tools:" = true /\
  Classifier.numbered_list_rule "1. Supabase" = true /\
  Classifier.stop_word_rule "This summary mentions many tools" = true /\
  Classifier.word_count_rule
    "Railway CLI deploy assistant extra words here too" = true.
Proof. vm_compute. repeat split. Qed.

(** C5: the filter is idempotent: run again on the lines it produced,
    from a list of lines or from a text, it returns them unchanged; so
    does a second pass over the text that holds these lines one per
    line. *)
Theorem classifier_idempotent :
  (forall lines,
     Classifier.classify_lines (Classifier.classify_lines lines)
       = Classifier.classify_lines lines) /\
  (forall content,
     Classifier.classify_lines (Classifier.classify content)
       = Classifier.classify content) /\
  (forall content,
     Classifier.classify
       (PyStr.join (String newline EmptyString) (Classifier.classify content))
       = Classifier.classify content).
Proof.
  assert (forall lines,
            Classifier.classify_lines (Classifier.classify_lines lines)
              = Classifier.classify_lines lines) as H.
  { intros lines. apply ClassifierFacts.classify_lines_fixed,
      ClassifierFacts.classify_lines_output. }
  split; [exact H|]. split; [intros content; apply H|].
  apply ClassifierFacts.classify_text_fixed.
Qed.

(** ** The fallback never says Freemium *)

Lemma any_in_freemium_free s :
  any_in ["freemium"; "free tier"; "free plan"] s = true ->
  any_in ["free"; "$0"; "no cost"] s = true.
Proof.
  unfold any_in. cbn [existsb]. rewrite !orb_false_r, !orb_true_iff.
  intros [H|[H|H]]; left.
  - by apply (StrFacts.contains_prefix "free" "mium").
  - by apply (StrFacts.contains_prefix "free" " tier").
  - by apply (StrFacts.contains_prefix "free" " plan").
Qed.

(** C10: the fallback never yields Freemium: each keyword of the Freemium
    group contains "free", so a content that matches the Freemium group
    has already matched the Free group. *)
Theorem fallback_never_freemium :
  (forall content, fallback_pricing content <> "Freemium") /\
  (forall company_name llm_response content,
     exists a, _create_fallback_analysis company_name llm_response content = inr a
               /\ pricing_model a <> PStr "Freemium") /\
  forallb (PyStr.contains "free") ["freemium"; "free tier"; "free plan"] = true /\
  (forall text,
     any_in ["freemium"; "free tier"; "free plan"] text
     && negb (any_in ["free"; "$0"; "no cost"] text) = false).
Proof.
  assert (forall content, fallback_pricing content <> "Freemium") as H.
  { intros content. unfold fallback_pricing.
    destruct (any_in ["free"; "$0"; "no cost"] _) eqn:E1; [done|].
    destruct (any_in ["freemium"; "free tier"; "free plan"] _) eqn:E2.
    { apply any_in_freemium_free in E2. congruence. }
    repeat case_match; done. }
  split; [exact H|]. split; [|split; [done|]].
  - intros company_name llm_response content.
    eexists. split; [apply fallback_value|].
    cbn [pricing_model]. intros [= E]. by apply (H content).
  - intros text.
    destruct (any_in ["freemium"; "free tier"; "free plan"] text) eqn:E; [|done].
    apply any_in_freemium_free in E. by rewrite E.
Qed.

(** ** The theorems at work on scripted collaborators *)

(** Five candidates: the searches are those of the first four. *)
Lemma research_first_four_witness :
  exists cs st' d,
    _research_step Demo.World Demo.llm Demo.search_companies
      Demo.scrape_company_pages Demo.json_loads
      (mkResearchState "backend as a service" Demo.five_tools [] None)
      (mkSt Demo.World [] []) = (inr cs, st')
    /\ trace Demo.World st' = [] ++ d
    /\ searches d =
         [EvSearch "Supabase official site" 1; EvSearch "PlanetScale official site" 1;
          EvSearch "Railway official site" 1; EvSearch "Appwrite official site" 1]
    /\ length (searches d) = 4%nat.
Proof.
  exact (research_first_four Demo.World Demo.llm Demo.search_companies
           Demo.scrape_company_pages Demo.json_loads
           (mkResearchState "backend as a service" Demo.five_tools [] None)
           (mkSt Demo.World [] []) (le_n 5)).
Defined.

(** Two blank answers: the fallback for tool "X", priced from a content
    that says "contact sales". *)
Lemma empty_responses_fallback_witness :
  _analyze_company_content Demo.World Demo.llm Demo.json_loads
    "X" "Contact sales for a quote"
    (mkSt Demo.World [LlmResponse (PStr ""); LlmResponse (PStr "  ")] [])
  = (inr (Some (mkCompanyAnalysis
                  (PStr "Enterprise") PNone (PList [])
                  (PStr "X is a developer tool") PNone (PList []) (PList []))),
     mkSt Demo.World []
       [EvInvoke (ToolAnalysis "X" "Contact sales for a quote");
        EvInvoke (ToolAnalysis "X" "Contact sales for a quote")]).
Proof.
  exact (empty_responses_fallback Demo.World Demo.llm Demo.json_loads
           "X" "Contact sales for a quote"
           (mkSt Demo.World [LlmResponse (PStr ""); LlmResponse (PStr "  ")] [])
           "" [LlmResponse (PStr "  ")] "  " []
           eq_refl eq_refl eq_refl eq_refl).
Defined.

(** A model that refuses every call: extraction yields no candidate, and
    the run ends with the exception of the recommendation call. *)
Lemma transport_failure_witness :
  fst (_extract_tools_step Demo.World Demo.llm Demo.search_companies
         Demo.scrape_company_pages
         (mkResearchState "vector database" [] [] None)
         (mkSt Demo.World [] [])) = inr []
  /\ fst (run Demo.World Demo.llm Demo.search_companies
            Demo.scrape_company_pages Demo.json_loads Demo.company_json
            "vector database" (mkSt Demo.World [] []))
     = inl (CollaboratorError "connection refused").
Proof.
  destruct (transport_failure Demo.World Demo.llm Demo.search_companies
              Demo.scrape_company_pages Demo.json_loads Demo.company_json
              "vector database" (mkSt Demo.World [] [])) as (H1 & _ & H3).
  split.
  - destruct (H1 _ _ _ _ eq_refl eq_refl) as [He _]. rewrite He. reflexivity.
  - rewrite (H3 _ _ _ _ _ _ eq_refl eq_refl eq_refl). reflexivity.
Defined.

(** ** More about the classifier *)

Module ClassifierMore.
Import StrFacts ClassifierFacts.
Import Classifier.

Lemma filter_sublist_bool {A} (f : A -> bool) (l : list A) :
  sublist (List.filter f l) l.
Proof.
  induction l as [|x l IH]; simpl; [constructor|].
  destruct (f x); by constructor.
Qed.

Lemma keeps_rules line :
  keeps line = true ->
  line <> EmptyString
  /\ preamble_rule line = false
  /\ numbered_list_rule line = false
  /\ Forall (fun word => PyStr.contains word (PyStr.lower line) = false)
       summary_keywords
  /\ (length (PyStr.split_ws line) <= 5)%nat.
Proof.
  unfold keeps. rewrite !andb_true_iff, !negb_true_iff.
  intros [[[[H1 H2] H3] H4] H5]. split; [by intros ->|].
  split; [done|]. split; [done|]. split.
  - unfold stop_word_rule in H4. apply Forall_forall. intros word Hw.
    destruct (PyStr.contains word (PyStr.lower line)) eqn:E; [|done].
    assert (existsb (fun word => PyStr.contains word (PyStr.lower line))
              summary_keywords = true) as Hex; [|congruence].
    apply existsb_exists. exists word. split; [|done].
    by apply list_elem_of_In.
  - unfold word_count_rule in H5. apply Nat.ltb_ge in H5. exact H5.
Qed.

Lemma lower_app a b : PyStr.lower (a +:+ b) = PyStr.lower a +:+ PyStr.lower b.
Proof.
  induction a as [|x a IH]; [done|].
  rewrite StrFacts.append_cons. cbn [PyStr.lower]. by rewrite IH, StrFacts.append_cons.
Qed.

Lemma isspace_lower_char c : PyStr.isspace (PyStr.lower_char c) = PyStr.isspace c.
Proof. destruct c as [[] [] [] [] [] [] [] []]; reflexivity. Qed.

Lemma lower_chars w :
  list_ascii_of_string (PyStr.lower w) = map PyStr.lower_char (list_ascii_of_string w).
Proof. induction w as [|x w IH]; simpl; [done|]. by rewrite IH. Qed.

Lemma lstrip_keeps_word c w s :
  PyStr.isspace c = false ->
  PyStr.contains (String c w) s = true ->
  PyStr.contains (String c w) (PyStr.lstrip s) = true.
Proof.
  intros Hc. induction s as [|x s IH]; [done|]. intros H.
  cbn [PyStr.lstrip]. destruct (PyStr.isspace x) eqn:Hx; [|done].
  apply IH. cbn [PyStr.contains PyStr.startswith] in H.
  apply orb_true_iff in H as [H|H]; [|done].
  apply andb_true_iff in H as [H _]. apply Ascii.eqb_eq in H as ->. congruence.
Qed.

Lemma rstrip_keeps_prefix w : forall s,
  Forall (fun c => PyStr.isspace c = false) (list_ascii_of_string w) ->
  PyStr.startswith w s = true ->
  PyStr.startswith w (PyStr.rstrip s) = true.
Proof.
  induction w as [|a w IH]; intros s Hw H; [by destruct (PyStr.rstrip s)|].
  destruct s as [|b s]; [done|].
  cbn [PyStr.startswith] in H. apply andb_true_iff in H as [Hab H].
  apply Ascii.eqb_eq in Hab as <-.
  cbn [list_ascii_of_string] in Hw. inversion Hw as [|? ? Ha Hw']; subst.
  specialize (IH s Hw' H). cbn [PyStr.rstrip].
  destruct (PyStr.rstrip s) as [|y r].
  - destruct w; [|done]. rewrite Ha. cbn. by rewrite Ascii.eqb_refl.
  - cbn [PyStr.startswith]. by rewrite Ascii.eqb_refl, IH.
Qed.

Lemma rstrip_keeps_word c w s :
  Forall (fun c => PyStr.isspace c = false) (list_ascii_of_string (String c w)) ->
  PyStr.contains (String c w) s = true ->
  PyStr.contains (String c w) (PyStr.rstrip s) = true.
Proof.
  intros Hw. induction s as [|x s IH]; [done|]. intros H.
  cbn [PyStr.contains] in H. apply orb_true_iff in H as [H|H].
  - apply (rstrip_keeps_prefix _ _ Hw) in H.
    destruct (PyStr.rstrip (String x s)) as [|y r]; [done|].
    cbn [PyStr.contains]. by rewrite H.
  - specialize (IH H). cbn [PyStr.rstrip].
    destruct (PyStr.rstrip s) as [|y r]; [done|].
    cbn [PyStr.contains] in *. rewrite IH. apply orb_true_r.
Qed.

Lemma strip_keeps_word w s :
  w <> EmptyString ->
  Forall (fun c => PyStr.isspace c = false) (list_ascii_of_string w) ->
  PyStr.contains w s = true ->
  PyStr.contains w (PyStr.strip s) = true.
Proof.
  intros Hne Hw H. destruct w as [|c w]; [done|].
  apply rstrip_keeps_word; [done|]. apply lstrip_keeps_word; [|done].
  by inversion Hw.
Qed.

Lemma keyword_shape k :
  k ∈ summary_keywords ->
  k <> EmptyString
  /\ Forall (fun c => PyStr.isspace c = false) (list_ascii_of_string k).
Proof.
  unfold summary_keywords. rewrite !elem_of_cons, elem_of_nil.
  intros [->|[->|[->|[->|[->|[->|[->|[]]]]]]]]; (split; [done|]);
    cbn [list_ascii_of_string]; repeat constructor.
Qed.

Lemma variant_shape w k :
  PyStr.lower w = k ->
  k <> EmptyString ->
  Forall (fun c => PyStr.isspace c = false) (list_ascii_of_string k) ->
  w <> EmptyString
  /\ Forall (fun c => PyStr.isspace c = false) (list_ascii_of_string w).
Proof.
  intros <- Hne Hk. split; [by intros ->|].
  rewrite lower_chars in Hk. apply Forall_fmap in Hk.
  eapply Forall_impl; [exact Hk|]. intros c Hc. cbn in Hc.
  by rewrite isspace_lower_char in Hc.
Qed.

End ClassifierMore.

(** X1: every candidate the classifier yields from a text is a non-empty,
    stripped, single line that passes each test: it does not begin with
    "here are", is not refused by the numbered-list rule, contains no stop
    word in any letter case, and has at most five words; and the
    candidates are a subsequence of the stripped lines of the text, in
    their order. *)
Theorem classifier_output_invariant content :
  Forall (fun line =>
            line <> EmptyString
            /\ PyStr.strip line = line
            /\ PyStr.contains (String newline EmptyString) line = false
            /\ Classifier.preamble_rule line = false
            /\ Classifier.numbered_list_rule line = false
            /\ Forall (fun word => PyStr.contains word (PyStr.lower line) = false)
                 Classifier.summary_keywords
            /\ (length (PyStr.split_ws line) <= 5)%nat)
    (Classifier.classify content)
  /\ sublist (Classifier.classify content)
       (map PyStr.strip (PyStr.split newline (PyStr.strip content))).
Proof.
  split.
  - pose proof (ClassifierFacts.classify_output content) as H1.
    assert (Forall (fun l => PyStr.strip l = l /\ Classifier.keeps l = true)
              (Classifier.classify content)) as H2
      by apply ClassifierFacts.classify_lines_output.
    rewrite Forall_forall in H1, H2. apply Forall_forall. intros line Hin.
    destruct (H1 line Hin) as [[Hs Hne] Hnl]. destruct (H2 line Hin) as [_ Hk].
    destruct (ClassifierMore.keeps_rules line Hk) as (_ & P & N & S & W).
    auto 10.
  - unfold Classifier.classify. rewrite ClassifierFacts.classify_lines_filter.
    apply ClassifierMore.filter_sublist_bool.
Qed.

(** X2: lines that are empty or hold only white space yield no
    candidate: a blank answer is an empty list, not an error. *)
Theorem classifier_blank_lines lines :
  Forall (fun raw => PyStr.strip raw = EmptyString) lines ->
  Classifier.classify_lines lines = [].
Proof.
  rewrite ClassifierFacts.classify_lines_filter. induction 1 as [|raw lines Hr _ IH]; [done|].
  cbn [map List.filter]. by rewrite Hr.
Qed.

(** X3: each line is judged on its own: the candidates of a
    concatenation are the candidates of the parts, one after the other
    (nothing is merged or deduplicated), and there are never more
    candidates than lines. *)
Theorem classifier_concat l1 l2 :
  Classifier.classify_lines (l1 ++ l2)
    = Classifier.classify_lines l1 ++ Classifier.classify_lines l2
  /\ (length (Classifier.classify_lines l1) <= length l1)%nat.
Proof.
  rewrite !ClassifierFacts.classify_lines_filter. split.
  - by rewrite map_app, List.filter_app.
  - etransitivity; [apply List.filter_length_le|]. by rewrite length_map.
Qed.

(** X4: a line that contains a stop word as a substring, in any letter
    case and anywhere in the line, is dropped, whatever else it says:
    "Contentful" holds "content" and is not kept. *)
Theorem stop_word_substring tool_names raw pre w post :
  raw = pre +:+ w +:+ post ->
  PyStr.lower w ∈ Classifier.summary_keywords ->
  Classifier.classify_step tool_names raw = tool_names.
Proof.
  intros -> Hk.
  destruct (ClassifierMore.keyword_shape _ Hk) as [Kne Kws].
  destruct (ClassifierMore.variant_shape w _ eq_refl Kne Kws) as [Wne Wws].
  assert (PyStr.contains w (PyStr.strip (pre +:+ w +:+ post)) = true) as Hc.
  { apply ClassifierMore.strip_keeps_word; [done|done|].
    apply StrFacts.contains_spec. eauto. }
  apply StrFacts.contains_spec in Hc as (p & q & Hc).
  assert (Classifier.stop_word_rule (PyStr.strip (pre +:+ w +:+ post)) = true) as Hs.
  { unfold Classifier.stop_word_rule. apply existsb_exists.
    exists (PyStr.lower w). split; [by apply list_elem_of_In|].
    rewrite Hc, !ClassifierMore.lower_app. apply StrFacts.contains_spec. eauto. }
  unfold Classifier.classify_step. cbv zeta. rewrite Hs.
  by repeat case_match.
Qed.

Lemma stop_word_substring_witness :
  Classifier.classify_step ["Supabase"] "  Contentful " = ["Supabase"].
Proof.
  apply (stop_word_substring ["Supabase"] "  Contentful " "  " "Content" "ful ").
  - reflexivity.
  - vm_compute. set_solver.
Defined.

Lemma classifier_blank_lines_witness :
  Classifier.classify_lines [""; "   "; String newline ""] = [].
Proof.
  apply classifier_blank_lines. repeat constructor.
Defined.

(** ** Finding the JSON in a response *)

Module SliceFacts.
Import StrFacts.

Lemma find_lower_bound c s : -1 <= PyStr.find c s.
Proof.
  induction s as [|x s IH]; cbn [PyStr.find]; [lia|].
  destruct (Ascii.eqb x c); [lia|]. destruct (Z.eqb_spec (PyStr.find c s) (-1)); lia.
Qed.

Lemma rfind_lower_bound c s : -1 <= PyStr.rfind c s.
Proof.
  induction s as [|x s IH]; cbn [PyStr.rfind]; [lia|].
  destruct (Z.eqb_spec (PyStr.rfind c s) (-1)); [|lia].
  destruct (Ascii.eqb x c); lia.
Qed.

Lemma rfind_absent c s :
  PyStr.rfind c s = -1 -> PyStr.contains (String c EmptyString) s = false.
Proof.
  induction s as [|x s IH]; [done|]. cbn [PyStr.rfind].
  pose proof (rfind_lower_bound c s).
  destruct (Z.eqb_spec (PyStr.rfind c s) (-1)) as [E|E]; [|lia].
  destruct (Ascii.eqb x c) eqn:Hx; [lia|]. intros _.
  by rewrite contains_char_cons, Ascii.eqb_sym, Hx, IH.
Qed.

Lemma find_spec c s :
  PyStr.find c s <> -1 ->
  exists pre rest,
    s = pre +:+ String c rest
    /\ Z.of_nat (String.length pre) = PyStr.find c s
    /\ PyStr.contains (String c EmptyString) pre = false.
Proof.
  induction s as [|x s IH]; [done|]. cbn [PyStr.find].
  destruct (Ascii.eqb x c) eqn:Hx.
  - apply Ascii.eqb_eq in Hx as ->. intros _. by exists EmptyString, s.
  - destruct (Z.eqb_spec (PyStr.find c s) (-1)) as [E|E]; [done|]. intros _.
    destruct (IH E) as (pre & rest & -> & Hl & Hc).
    exists (String x pre), rest. split; [done|]. split.
    + cbn [String.length]. lia.
    + by rewrite contains_char_cons, Ascii.eqb_sym, Hx, Hc.
Qed.

Lemma rfind_spec c s :
  PyStr.rfind c s <> -1 ->
  exists pre post,
    s = pre +:+ String c post
    /\ Z.of_nat (String.length pre) = PyStr.rfind c s
    /\ PyStr.contains (String c EmptyString) post = false.
Proof.
  induction s as [|x s IH]; [done|]. cbn [PyStr.rfind].
  destruct (Z.eqb_spec (PyStr.rfind c s) (-1)) as [E|E].
  - destruct (Ascii.eqb x c) eqn:Hx; [|done]. intros _.
    apply Ascii.eqb_eq in Hx as ->. exists EmptyString, s.
    split; [done|]. split; [done|]. by apply rfind_absent.
  - intros _. destruct (IH E) as (pre & post & -> & Hl & Hc).
    exists (String x pre), post. split; [done|]. split; [|done].
    cbn [String.length]. lia.
Qed.

Lemma app_split (p1 x p2 y : string) :
  p1 +:+ x = p2 +:+ y ->
  (String.length p1 <= String.length p2)%nat ->
  exists m, p2 = p1 +:+ m /\ x = m +:+ y.
Proof.
  revert p2. induction p1 as [|a p1 IH]; intros p2 H Hl.
  - by exists p2.
  - destruct p2 as [|b p2]; [cbn in Hl; lia|].
    rewrite !append_cons in H. injection H as -> H.
    cbn [String.length] in Hl.
    destruct (IH p2 H ltac:(lia)) as (m & -> & ->). by exists m.
Qed.

Lemma drop_app p t : PyStr.drop (String.length p) (p +:+ t) = t.
Proof. induction p as [|a p IH]; [done|]. by rewrite append_cons. Qed.

Lemma take_app p t : PyStr.take (String.length p) (p +:+ t) = p.
Proof.
  induction p as [|a p IH]; [by destruct t|].
  rewrite append_cons. cbn [String.length PyStr.take]. by rewrite IH.
Qed.

Lemma endswith_app p b : PyStr.endswith p (b +:+ p) = true.
Proof.
  induction b as [|x b IH].
  - change (EmptyString +:+ p) with p. destruct p; cbn [PyStr.endswith];
      by rewrite String.eqb_refl.
  - rewrite append_cons. cbn [PyStr.endswith]. rewrite IH.
    by destruct (String.eqb _ _).
Qed.

Lemma drop_last_app p b : PyStr.drop_last (String.length p) (b +:+ p) = b.
Proof.
  unfold PyStr.drop_last. rewrite string_length_app.
  replace (String.length b + String.length p - String.length p)%nat
    with (String.length b) by lia.
  apply take_app.
Qed.

End SliceFacts.

(** The slice between the first "{" and the last "}". *)
Lemma slice_between_braces s :
  let a := PyStr.find "{" s in
  let b := PyStr.rfind "}" s in
  a <> -1 -> b <> -1 ->
  (a < b ->
   exists pre mid post,
     s = pre +:+ "{" +:+ mid +:+ "}" +:+ post
     /\ PyStr.contains "{" pre = false
     /\ PyStr.contains "}" post = false
     /\ PyStr.slice a (b + 1) s = "{" +:+ mid +:+ "}")
  /\ (b < a -> PyStr.slice a (b + 1) s = EmptyString).
Proof.
  intros a b Ha Hb. split.
  - intros Hlt.
    destruct (SliceFacts.find_spec "{" s Ha) as (pre & rest & E1 & L1 & C1).
    destruct (SliceFacts.rfind_spec "}" s Hb) as (pre' & post & E2 & L2 & C2).
    fold a in L1. fold b in L2.
    assert (pre +:+ String "{" rest = pre' +:+ String "}" post) as E by congruence.
    destruct (SliceFacts.app_split _ _ _ _ E ltac:(lia)) as (m & -> & Hm).
    rewrite string_length_app in L2.
    destruct m as [|x mid]; [cbn [String.length] in L2; lia|].
    rewrite StrFacts.append_cons in Hm. injection Hm as <- ->.
    exists pre, mid, post. split; [done|]. split; [done|]. split; [done|].
    unfold PyStr.slice. rewrite E1, <- L1, Nat2Z.id, SliceFacts.drop_app.
    cbn [String.length] in L2.
    replace (Z.to_nat (b + 1 - Z.of_nat (String.length pre)))
      with (String.length (String "{" (mid +:+ "}"))).
    2:{ cbn [String.length]. rewrite string_length_app. cbn [String.length]. lia. }
    change (String "{" (mid +:+ String "}" post))
      with (String "{" (mid +:+ "}" +:+ post)).
    rewrite <- (StrFacts.append_assoc mid "}" post).
    exact (SliceFacts.take_app (String "{" (mid +:+ "}")) post).
  - intros Hlt. unfold PyStr.slice.
    replace (Z.to_nat (b + 1 - a)) with 0%nat by lia. by destruct (PyStr.drop _ s).
Qed.

Lemma braces_apart s :
  PyStr.find "{" s <> -1 -> PyStr.rfind "}" s <> -1 ->
  PyStr.find "{" s <> PyStr.rfind "}" s.
Proof.
  intros Ha Hb Heq.
  destruct (SliceFacts.find_spec "{" s Ha) as (pre & rest & E1 & L1 & _).
  destruct (SliceFacts.rfind_spec "}" s Hb) as (pre' & post & E2 & L2 & _).
  assert (pre +:+ String "{" rest = pre' +:+ String "}" post) as E by congruence.
  destruct (SliceFacts.app_split _ _ _ _ E ltac:(lia)) as (m & -> & Hm).
  rewrite string_length_app in L2.
  destruct m as [|x m]; [discriminate Hm|]. cbn [String.length] in L2. lia.
Qed.

(** X13: what [_analyze_company_content] hands to [json.loads], as lines
    117-138 choose it from the response without its fences.  A text that
    begins with "{" is handed over whole, whatever follows its last "}".
    Otherwise, when a brace is missing there is no candidate; when both
    are there the candidate runs from the first "{" to the last "}", both
    included, with no "{" before it and no "}" after it; and when the last
    "}" comes before the first "{" the candidate is the empty string. *)
Theorem brace_slice json_str :
  let t := strip_fences json_str in
  let a := PyStr.find "{" t in
  let b := PyStr.rfind "}" t in
  if PyStr.startswith "{" t then json_candidate json_str = Some t
  else if (a =? -1) || (b =? -1) then json_candidate json_str = None
  else if a <? b then
    exists pre mid post,
      t = pre +:+ "{" +:+ mid +:+ "}" +:+ post
      /\ PyStr.contains "{" pre = false
      /\ PyStr.contains "}" post = false
      /\ json_candidate json_str = Some ("{" +:+ mid +:+ "}")
  else json_candidate json_str = Some EmptyString.
Proof.
  intros t a b. unfold json_candidate. fold t. fold a. fold b.
  destruct (PyStr.startswith "{" t); cbn [negb]; [done|].
  destruct (Z.eqb_spec a (-1)) as [Ea|Ea]; cbn [negb andb orb]; [done|].
  destruct (Z.eqb_spec b (-1)) as [Eb|Eb]; cbn [negb andb orb]; [done|].
  destruct (slice_between_braces t Ea Eb) as [Hlt Hgt]. fold a b in Hlt, Hgt.
  destruct (Z.ltb_spec a b) as [Hab|Hab].
  - destruct (Hlt Hab) as (pre & mid & post & Ht & Hp & Hq & Hs).
    exists pre, mid, post. by rewrite Hs.
  - pose proof (braces_apart t Ea Eb) as Hne. fold a b in Hne.
    rewrite Hgt by lia. done.
Qed.

(** A text that begins with "{" is kept whole; a wrapped one is cut to
    its braces; braces the wrong way round give the empty string; no brace
    gives nothing. *)
Lemma brace_slice_witness :
  json_candidate "{} and more" = Some "{} and more"
  /\ (exists pre mid post,
        "Sure: {} - done" = pre +:+ "{" +:+ mid +:+ "}" +:+ post
        /\ PyStr.contains "{" pre = false
        /\ PyStr.contains "}" post = false
        /\ json_candidate "Sure: {} - done" = Some ("{" +:+ mid +:+ "}"))
  /\ json_candidate "} and {" = Some EmptyString
  /\ json_candidate "no braces here" = None.
Proof.
  split; [exact (brace_slice "{} and more")|].
  split; [exact (brace_slice "Sure: {} - done")|].
  split; [exact (brace_slice "} and {")|exact (brace_slice "no braces here")].
Defined.

Lemma fenced_candidate body :
  PyStr.startswith "{" (PyStr.strip body) = true ->
  json_candidate ("```json" +:+ body +:+ "```") = Some (PyStr.strip body).
Proof.
  intros H. unfold json_candidate, strip_fences.
  change (PyStr.startswith "```json" ("```json" +:+ body +:+ "```")) with true.
  cbv iota.
  change (PyStr.drop 7 ("```json" +:+ body +:+ "```")) with (body +:+ "```").
  rewrite SliceFacts.endswith_app.
  change (PyStr.drop_last 3 (body +:+ "```"))
    with (PyStr.drop_last (String.length "```") (body +:+ "```")).
  rewrite (SliceFacts.drop_last_app "```" body). by rewrite H.
Qed.

(** X14: a first answer that is a JSON object between a "```json" fence
    and a "```" fence is accepted at once: both fences are removed, the
    object is parsed, and its analysis is returned after a single model
    call. *)
Theorem fenced_json_accepted
    (World : Type) (llm : prompt -> World -> llm_outcome * World)
    (json_loads : string -> option pyval)
    company_name content (st : St World) c w body a :
  let p := analysis_prompt company_name content in
  llm p (world World st) = (LlmResponse (PStr c), w) ->
  PyStr.strip c = "```json" +:+ body +:+ "```" ->
  PyStr.startswith "{" (PyStr.strip body) = true ->
  parse_and_build json_loads (PyStr.strip body) = inr a ->
  _analyze_company_content World llm json_loads company_name content st
  = (inr (Some a), mkSt World w (trace World st ++ [EvInvoke p])).
Proof.
  intros p Hl Hc Hb Hp.
  rewrite analyze_characterisation. fold p. rewrite Hl. cbn [fst].
  unfold attempt_result. rewrite Hc.
  change (PyStr.is_empty ("```json" +:+ body +:+ "```")) with false. cbv iota.
  rewrite (fenced_candidate body Hb), Hp.
  unfold after_invoke. fold p. by rewrite Hl.
Qed.

Lemma fenced_json_accepted_witness :
  _analyze_company_content Demo.World Demo.llm Demo.json_loads "Supabase" "docs"
    (mkSt Demo.World
       [LlmResponse (PStr ("```json" +:+ String newline "{}" +:+ String newline "```"))] [])
  = (inr (Some (mkCompanyAnalysis (PStr "Unknown") PNone (PList [])
                  (PStr "No description available") PNone (PList []) (PList []))),
     mkSt Demo.World [] [EvInvoke (ToolAnalysis "Supabase" "docs")]).
Proof.
  exact (fenced_json_accepted Demo.World Demo.llm Demo.json_loads "Supabase" "docs"
           (mkSt Demo.World
              [LlmResponse (PStr ("```json" +:+ String newline "{}" +:+ String newline "```"))] [])
           _ [] (String newline "{}" +:+ String newline "") _
           eq_refl eq_refl eq_refl eq_refl).
Defined.

(** X15: in the fallback a keyword of the first group decides: a content
    that holds "free", "$0" or "no cost" anywhere, in any letter case, is
    priced Free, whatever it says about enterprise plans or prices. *)
Theorem fallback_free_wins pre w post :
  PyStr.lower w ∈ ["free"; "$0"; "no cost"] ->
  fallback_pricing (pre +:+ w +:+ post) = "Free".
Proof.
  intros Hw. unfold fallback_pricing.
  assert (any_in ["free"; "$0"; "no cost"] (PyStr.lower (pre +:+ w +:+ post)) = true)
    as ->; [|done].
  unfold any_in. apply existsb_exists. exists (PyStr.lower w).
  split; [by apply list_elem_of_In|].
  rewrite !ClassifierMore.lower_app. apply StrFacts.contains_spec. eauto.
Qed.

Lemma fallback_free_wins_witness :
  fallback_pricing "Enterprise plans from $99, FREE for students" = "Free".
Proof.
  apply (fallback_free_wins "Enterprise plans from $99, " "FREE" " for students").
  vm_compute. set_solver.
Defined.

(** ** The chat loop *)

Module SimpleAgentFacts.
Import SimpleAgent.

Section Facts.
Variable World : Type.
Variable ainvoke : list message -> World -> agent_outcome * World.

Lemma chat_loop_run inputs : forall s,
  exists w' t,
    chat_loop World ainvoke inputs s =
      (if existsb is_quit inputs then Broke else EndOfInput,
       mkChat World (messages World s ++ map user_message (before_quit inputs)) w'
         (events World s ++ t))
    /\ asked t = map (fun pre => messages World s ++ map user_message pre)
                   (prefixes (before_quit inputs))
    /\ length (printed t)
       = (length (before_quit inputs)
          + if existsb is_quit inputs then 1 else 0)%nat
    /\ Forall (fun l => l <> Goodbye) (take (length (before_quit inputs)) (printed t)).
Proof.
  induction inputs as [|u rest IH]; intros s; cbn [chat_loop before_quit existsb].
  - exists (chat_world World s), []. rewrite !app_nil_r. destruct s; done.
  - destruct (is_quit u) eqn:Hq; cbn [orb].
    + exists (chat_world World s), [Printed Goodbye]. rewrite app_nil_r.
      repeat split; constructor.
    + destruct (ainvoke (messages World s ++ [user_message u]) (chat_world World s))
        as [o w] eqn:Ea.
      set (line := match o with AgentAnswers m => AgentSays m | AgentRaises e => ErrorSays e end).
      destruct (IH (mkChat World (messages World s ++ [user_message u]) w
                      (events World s ++ [Asked (messages World s ++ [user_message u]);
                                          Printed line])))
        as (w' & t & E & Ha & Hp & Hg).
      cbn [messages chat_world events] in *.
      exists w', ([Asked (messages World s ++ [user_message u]); Printed line] ++ t).
      rewrite E. split.
      { cbn [map]. by rewrite <- !app_assoc. }
      split.
      { cbn [prefixes map asked app]. rewrite Ha.
        cbn [map app]. f_equal. rewrite map_map. apply map_ext.
        intros pre. cbn [map]. by rewrite <- app_assoc. }
      split.
      { cbn [printed app length]. rewrite Hp. done. }
      cbn [printed app length take].
      constructor; [by destruct o|done].
Qed.

Lemma printed_app t1 t2 : printed (t1 ++ t2) = printed t1 ++ printed t2.
Proof.
  induction t1 as [|[] t1 IH]; cbn [app printed]; [done|done|]. by rewrite IH.
Qed.

(** The loop, call by call. *)
Lemma chat_loop_exact inputs : forall s,
  let histories :=
    map (fun pre => messages World s ++ map user_message pre)
      (prefixes (before_quit inputs)) in
  let replies := outcomes World ainvoke histories (chat_world World s) in
  let goodbye := if existsb is_quit inputs then [Goodbye] else [] in
  let s' := snd (chat_loop World ainvoke inputs s) in
  chat_world World s' = snd replies
  /\ events World s'
     = events World s ++ flat_map call_events (zip histories (fst replies))
       ++ map Printed goodbye
  /\ printed (events World s')
     = printed (events World s) ++ map line_of (fst replies) ++ goodbye.
Proof.
  induction inputs as [|u rest IH]; intros s;
    cbn [chat_loop before_quit existsb prefixes map outcomes].
  - cbn. by rewrite !app_nil_r.
  - destruct (is_quit u) eqn:Hq; cbn [orb prefixes map outcomes].
    + cbn. by rewrite printed_app.
    + rewrite map_map.
      assert (map (fun pre => messages World s ++ map user_message (u :: pre))
                (prefixes (before_quit rest))
              = map (fun pre => (messages World s ++ [user_message u])
                                  ++ map user_message pre)
                  (prefixes (before_quit rest))) as ->.
      { apply map_ext. intros pre. cbn [map]. by rewrite <- app_assoc. }
      cbn [map].
      destruct (ainvoke (messages World s ++ [user_message u]) (chat_world World s))
        as [o w].
      specialize (IH (mkChat World (messages World s ++ [user_message u]) w
                        (events World s
                           ++ [Asked (messages World s ++ [user_message u]);
                               Printed (line_of o)]))).
      cbn [messages chat_world events] in IH. cbv zeta in IH.
      destruct (outcomes World ainvoke _ w) as [os w2].
      cbn [fst snd] in *. cbv zeta.
      change (match o with
              | AgentRaises e => ErrorSays e
              | AgentAnswers ai_message => AgentSays ai_message
              end) with (line_of o).
      destruct IH as (IHw & IHe & IHp). rewrite IHp, IHw, IHe.
      split; [done|]. split.
      * cbn [zip zip_with flat_map call_events fst snd app].
        by rewrite <- !app_assoc.
      * rewrite printed_app. cbn [printed map app]. by rewrite <- !app_assoc.
Qed.

End Facts.
End SimpleAgentFacts.

(** X16: the chat loop ends by "quit", in any letter case, or at the end
    of the input; the history it leaves is the system prompt followed by
    the inputs read before the first quit, each cut to 175000 characters,
    in order.  No answer and no error of the agent is kept in it. *)
Theorem chat_history
    (World : Type)
    (ainvoke : list SimpleAgent.message -> World -> SimpleAgent.agent_outcome * World)
    inputs w :
  let r := SimpleAgent.main World ainvoke inputs w in
  fst r = (if existsb SimpleAgent.is_quit inputs
           then SimpleAgent.Broke else SimpleAgent.EndOfInput)
  /\ SimpleAgent.messages World (snd r)
     = SimpleAgent.mkMessage SimpleAgent.System SimpleAgent.system_prompt
         :: map SimpleAgent.user_message (SimpleAgent.before_quit inputs)
  /\ Forall (fun u => (String.length (SimpleAgent.msg_content (SimpleAgent.user_message u))
                       <= SimpleAgent.max_input)%nat)
       (SimpleAgent.before_quit inputs).
Proof.
  intros r. subst r. unfold SimpleAgent.main.
  destruct (SimpleAgentFacts.chat_loop_run World ainvoke inputs
              (SimpleAgent.mkChat World
                 [SimpleAgent.mkMessage SimpleAgent.System SimpleAgent.system_prompt] w []))
    as (w' & t & -> & _).
  split; [done|]. split; [done|].
  apply Forall_forall. intros u _. cbn [SimpleAgent.user_message SimpleAgent.msg_content].
  apply string_length_take.
Qed.

(** X17: the agent is asked once for each input before the first quit,
    with the system prompt and the user messages so far; after each call
    exactly one line is printed, the agent's answer when it answers and
    its error when it raises, and the loop goes on after an error;
    "Goodbye" is printed last, and only at a quit. *)
Theorem chat_agent_calls
    (World : Type)
    (ainvoke : list SimpleAgent.message -> World -> SimpleAgent.agent_outcome * World)
    inputs w :
  let r := SimpleAgent.main World ainvoke inputs w in
  let t := SimpleAgent.events World (snd r) in
  let said := SimpleAgent.before_quit inputs in
  let histories :=
    map (fun pre =>
           SimpleAgent.mkMessage SimpleAgent.System SimpleAgent.system_prompt
             :: map SimpleAgent.user_message pre)
      (SimpleAgent.prefixes said) in
  let replies := SimpleAgent.outcomes World ainvoke histories w in
  let goodbye := if existsb SimpleAgent.is_quit inputs
                 then [SimpleAgent.Goodbye] else [] in
  SimpleAgent.asked t = histories
  /\ SimpleAgent.printed t
     = map (fun o => match o with
                     | SimpleAgent.AgentAnswers ai_message =>
                         SimpleAgent.AgentSays ai_message
                     | SimpleAgent.AgentRaises e => SimpleAgent.ErrorSays e
                     end) (fst replies)
       ++ goodbye
  /\ t = flat_map (fun call =>
                     [SimpleAgent.Asked (fst call);
                      SimpleAgent.Printed
                        match snd call with
                        | SimpleAgent.AgentAnswers ai_message =>
                            SimpleAgent.AgentSays ai_message
                        | SimpleAgent.AgentRaises e => SimpleAgent.ErrorSays e
                        end])
           (zip histories (fst replies))
         ++ map SimpleAgent.Printed goodbye
  /\ SimpleAgent.chat_world World (snd r) = snd replies
  /\ length (SimpleAgent.printed t)
     = (length said + if existsb SimpleAgent.is_quit inputs then 1 else 0)%nat
  /\ Forall (fun l => l <> SimpleAgent.Goodbye)
       (take (length said) (SimpleAgent.printed t)).
Proof.
  intros r t said histories replies goodbye.
  subst r t said histories replies goodbye. unfold SimpleAgent.main.
  destruct (SimpleAgentFacts.chat_loop_run World ainvoke inputs
              (SimpleAgent.mkChat World
                 [SimpleAgent.mkMessage SimpleAgent.System SimpleAgent.system_prompt] w []))
    as (w' & t & E & Ha & Hp & Hg).
  pose proof (SimpleAgentFacts.chat_loop_exact World ainvoke inputs
                (SimpleAgent.mkChat World
                   [SimpleAgent.mkMessage SimpleAgent.System SimpleAgent.system_prompt]
                   w [])) as Hx.
  cbn [SimpleAgent.events SimpleAgent.messages SimpleAgent.chat_world app] in *.
  rewrite E in Hx. destruct Hx as (Hw & Ht & Hpr).
  unfold SimpleAgent.call_events, SimpleAgent.line_of in Ht, Hpr.
  cbn [snd SimpleAgent.events SimpleAgent.chat_world].
  rewrite E. cbn [snd SimpleAgent.events SimpleAgent.chat_world]. auto 10.
Qed.

(** X18: nothing is read after a quit: the inputs that follow it change
    neither the history, nor the calls, nor what is printed. *)
Theorem chat_quit_stops
    (World : Type)
    (ainvoke : list SimpleAgent.message -> World -> SimpleAgent.agent_outcome * World)
    pre q rest w :
  SimpleAgent.is_quit q = true ->
  SimpleAgent.main World ainvoke (pre ++ q :: rest) w
  = SimpleAgent.main World ainvoke (pre ++ [q]) w.
Proof.
  intros Hq. unfold SimpleAgent.main.
  generalize (SimpleAgent.mkChat World
                [SimpleAgent.mkMessage SimpleAgent.System SimpleAgent.system_prompt] w []).
  induction pre as [|u pre IH]; intros s; cbn [app SimpleAgent.chat_loop].
  - by rewrite Hq.
  - destruct (SimpleAgent.is_quit u); [done|].
    destruct (ainvoke _ _) as [o w1]. apply IH.
Qed.

Lemma chat_quit_stops_witness :
  SimpleAgent.main nat SimpleAgent.demo_agent ["scrape example.org"; "QUIT"; "more"] 0%nat
  = SimpleAgent.main nat SimpleAgent.demo_agent ["scrape example.org"; "QUIT"] 0%nat.
Proof.
  exact (chat_quit_stops nat SimpleAgent.demo_agent ["scrape example.org"] "QUIT"
           ["more"] 0%nat eq_refl).
Defined.

Example chat_demo :
  let r := SimpleAgent.main nat SimpleAgent.demo_agent
             ["a"; "b"; "c"; "Quit"; "d"] 0%nat in
  fst r = SimpleAgent.Broke
  /\ SimpleAgent.printed (SimpleAgent.events nat (snd r))
     = [SimpleAgent.AgentSays "short"; SimpleAgent.AgentSays "long";
        SimpleAgent.ErrorSays "rate limit"; SimpleAgent.Goodbye]
  /\ length (SimpleAgent.messages nat (snd r)) = 4%nat.
Proof. vm_compute. repeat split. Qed.

(** ** The stage theorems on scripted collaborators *)

(** No candidate: the direct search, then the one page it finds. *)
Lemma research_direct_search_witness :
  exists cs st' d,
    _research_step Demo.World Demo.llm Demo.search_companies
      Demo.scrape_company_pages Demo.json_loads
      (mkResearchState "vector database" [] [] None) (mkSt Demo.World [] [])
      = (inr cs, st')
    /\ trace Demo.World st' = [] ++ EvSearch "vector database" 4 :: d
    /\ searches d = [EvSearch "vector database official site" 1]
    /\ sublist (ci_name <$> cs) ["vector database"].
Proof.
  exact (research_direct_search Demo.World Demo.llm Demo.search_companies
           Demo.scrape_company_pages Demo.json_loads
           (mkResearchState "vector database" [] [] None) (mkSt Demo.World [] [])
           eq_refl).
Defined.

(** A provider that finds nothing: two model calls, no company. *)
Lemma run_without_search_results_witness :
  exists r st' d,
    run Demo.World Demo.llm Demo.no_results Demo.scrape_company_pages
      Demo.json_loads Demo.company_json "vector database"
      (mkSt Demo.World [LlmResponse (PStr "Qdrant"); LlmResponse (PStr "Use Qdrant.")] [])
      = (r, st')
    /\ trace Demo.World st' = [] ++ d
    /\ invocations d =
         [EvInvoke (ToolExtraction "vector database" "");
          EvInvoke (Recommendations "vector database" "")]
    /\ List.filter is_scrape d = []
    /\ match r with
       | inr final => query final = "vector database" /\ companies final = []
       | inl _ => True
       end.
Proof.
  exact (run_without_search_results Demo.World Demo.llm Demo.no_results
           Demo.scrape_company_pages Demo.json_loads Demo.company_json
           (fun q n w => eq_refl) "vector database"
           (mkSt Demo.World
              [LlmResponse (PStr "Qdrant"); LlmResponse (PStr "Use Qdrant.")] [])).
Defined.

(** A list under a list key is kept by the repairs. *)
Lemma normalise_keeps_valid_witness :
  normalise {["tech_stack" := PList [PStr "Go"]]} !! "tech_stack"
  = Some (PList [PStr "Go"]).
Proof.
  apply normalise_keeps_valid.
  - reflexivity.
  - intros H. apply elem_of_cons in H as [H|H]; [discriminate|].
    apply list_elem_of_singleton in H. discriminate.
  - reflexivity.
Defined.

(** A string boolean and a string where a list belongs. *)
Lemma normalise_repairs_witness :
  normalise {["is_open_source" := PStr "True"]} !! "is_open_source"
    = Some (PBool true)
  /\ normalise {["tech_stack" := PStr "Go"]} !! "tech_stack" = Some (PList []).
Proof.
  split.
  - exact (proj1 (normalise_repairs {["is_open_source" := PStr "True"]}
                    "is_open_source")
             ltac:(constructor) "True" eq_refl).
  - exact (proj2 (normalise_repairs {["tech_stack" := PStr "Go"]} "tech_stack")
             ltac:(constructor)).
Defined.

(** Five candidates and a provider that does not know Railway: of the
    first four, three leave a record. *)
Lemma research_companies_witness :
  exists cs,
    fst (_research_step Demo.World Demo.llm Demo.search_known
           Demo.scrape_company_pages Demo.json_loads
           (mkResearchState "backend as a service" Demo.five_tools [] None)
           (mkSt Demo.World [] [])) = inr cs
    /\ ci_name <$> cs = ["Supabase"; "PlanetScale"; "Appwrite"].
Proof.
  destruct (research_companies Demo.World Demo.llm Demo.search_known
              Demo.scrape_company_pages Demo.json_loads
              (mkResearchState "backend as a service" Demo.five_tools [] None)
              (mkSt Demo.World [] []))
    as [(cs & st' & d & E & _ & _ & _ & _ & Hfound) _].
  exists cs. split; [by rewrite E|].
  apply (Hfound (fun q n => fst (Demo.search_known q n []))).
  intros q n w. unfold Demo.search_known.
  by destruct (PyStr.contains "Railway" q).
Defined.
